(** * wee_bugger: the trace-driven control loop of [SimpleDebugger]

    A shallow embedding of [wee_bugger/wee_bugger.py] and the properties of
    its prompt loop, command handlers and trace callback.

    Conventions of the embedding:
    - a Python [str] is a [string]; its characters are the code points
      below 256;
    - a Python [int] is a [Z];
    - a [dict] is an association list in insertion order with unique keys
      ([_list_variables] iterates over one, so the order is kept);
    - what the process prints is a list of console events, oldest first;
      writing to the console does not fail;
    - the operator is a script: the list of what each call of [input]
      yields, a line, an interrupt or the end of the input; an interrupt
      arrives only while [input] waits;
    - the library calls are modelled after CPython 3.10 and later (the
      source uses the [X | None] annotation): [str.split], [str.strip],
      [linecache.getline], [inspect.getframeinfo], [sys.exit]. *)

From Stdlib Require Import ZArith List String Ascii Bool Lia DecimalString.
Import ListNotations.

Open Scope string_scope.
Open Scope Z_scope.

(** ** Python strings *)

(** The line feed, written [\n] in the source. *)
Definition nl : string := String (ascii_of_nat 10) EmptyString.

(** [str.isspace] on one character (code points below 256). *)
Definition isspace (c : ascii) : bool :=
  let n := Z.of_nat (nat_of_ascii c) in
  ((9 <=? n) && (n <=? 13)) || ((28 <=? n) && (n <=? 32))
  || (n =? 133) || (n =? 160).

(** [s.lstrip()]. *)
Fixpoint lstrip (s : string) : string :=
  match s with
  | EmptyString => EmptyString
  | String c r => if isspace c then lstrip r else s
  end.

(** [s.rstrip()]. *)
Fixpoint rstrip (s : string) : string :=
  match s with
  | EmptyString => EmptyString
  | String c r =>
      match rstrip r with
      | EmptyString => if isspace c then EmptyString else String c EmptyString
      | r' => String c r'
      end
  end.

(** [s.strip()]. *)
Definition strip (s : string) : string := rstrip (lstrip s).

(** The longest prefix without whitespace, and what follows it. *)
Fixpoint span_word (s : string) : string * string :=
  match s with
  | EmptyString => (EmptyString, EmptyString)
  | String c r =>
      if isspace c then (EmptyString, s)
      else let (w, t) := span_word r in (String c w, t)
  end.

(** [s.split(maxsplit=1)]: no field for a blank string; else the first
    word, and, when something other than whitespace follows it, the rest
    of the line from its first non-blank character on, trailing whitespace
    included. *)
Definition split_maxsplit_1 (s : string) : list string :=
  match lstrip s with
  | EmptyString => []
  | s1 =>
      let (w, r) := span_word s1 in
      match lstrip r with
      | EmptyString => [w]
      | a => [w; a]
      end
  end.

(** [str(n)] for an [int]. *)
Definition str_int (n : Z) : string := NilEmpty.string_of_int (Z.to_int n).

Fixpoint spaces (k : nat) : string :=
  match k with
  | O => EmptyString
  | S k' => String " " (spaces k')
  end.

(** The format [{n:4d}]: right-aligned in a field of width 4. *)
Definition format_4d (n : Z) : string :=
  let s := str_int n in spaces (4 - String.length s) ++ s.

(** [not s] for a string. *)
Definition str_is_empty (s : string) : bool :=
  match s with EmptyString => true | _ => false end.

(** ** Exceptions and results *)

(** The exceptions of the program: the two outside the [Exception] class
    that it meets, and the [Exception] subclasses, by class name and
    message ([str(e)] is the message). *)
Inductive BaseException : Type :=
| KeyboardInterrupt
| SystemExit (code : Z)
| Exception (cls : string) (msg : string).

Definition AttributeError (obj attr : string) : BaseException :=
  Exception "AttributeError"
    ("'" ++ obj ++ "' object has no attribute '" ++ attr ++ "'").

Definition EOFError : BaseException :=
  Exception "EOFError" "EOF when reading a line".

(** What unpacking [command, *args] raises on an empty list. *)
Definition ValueError_unpack : BaseException :=
  Exception "ValueError"
    "not enough values to unpack (expected at least 1, got 0)".

Inductive result (A : Type) : Type :=
| Ok (a : A)
| Raise (e : BaseException).
Arguments Ok {A} a.
Arguments Raise {A} e.

(** ** The console *)

Inductive console_event : Type :=
| Print (text : string)      (* print(text) *)
| Prompt (text : string).    (* the prompt written by input(text) *)

Definition console := list console_event.

(** What one call of [input] yields. *)
Inductive input_event : Type :=
| Entered (line : string)    (* a line, without its terminator *)
| Interrupt                  (* the operator's cancel signal *)
| EndOfInput.                (* the input stream is closed *)

(** ** The monad of the methods

    A method runs on the debugger object [self : S], may change it, prints,
    and returns or raises; what it changed and printed before raising
    stays. *)
Module Py.
Section WithState.
Context {S : Type}.

Definition M (A : Type) : Type := S -> result A * S * console.

Definition ret {A} (a : A) : M A := fun self => (Ok a, self, []).

Definition bind {A B} (m : M A) (f : A -> M B) : M B :=
  fun self =>
    let '(r, self1, o1) := m self in
    match r with
    | Ok a => let '(r2, self2, o2) := f a self1 in (r2, self2, (o1 ++ o2)%list)
    | Raise e => (Raise e, self1, o1)
    end.

Definition raise {A} (e : BaseException) : M A :=
  fun self => (Raise e, self, []).

Definition print (text : string) : M unit :=
  fun self => (Ok tt, self, [Print text]).

Definition get : M S := fun self => (Ok self, self, []).

Definition put (self' : S) : M unit := fun _ => (Ok tt, self', []).

Definition lift {A} (r : result A) : M A := fun self => (r, self, []).

(** [try: m  except Exception as e: h e] *)
Definition try_except_Exception {A} (m : M A) (h : string -> M A) : M A :=
  fun self =>
    let '(r, self1, o1) := m self in
    match r with
    | Raise (Exception _ msg) =>
        let '(r2, self2, o2) := h msg self1 in (r2, self2, (o1 ++ o2)%list)
    | _ => (r, self1, o1)
    end.

(** [try: m  except KeyboardInterrupt: k  except Exception as e: h e] *)
Definition try_except_KeyboardInterrupt_Exception {A}
    (m : M A) (k : M A) (h : string -> M A) : M A :=
  fun self =>
    let '(r, self1, o1) := m self in
    match r with
    | Raise KeyboardInterrupt =>
        let '(r2, self2, o2) := k self1 in (r2, self2, (o1 ++ o2)%list)
    | Raise (Exception _ msg) =>
        let '(r2, self2, o2) := h msg self1 in (r2, self2, (o1 ++ o2)%list)
    | _ => (r, self1, o1)
    end.

(** [for x in xs: body x] *)
Fixpoint for_each {A} (xs : list A) (body : A -> M unit) : M unit :=
  match xs with
  | [] => ret tt
  | x :: xs' => bind (body x) (fun _ => for_each xs' body)
  end.
End WithState.
Arguments M : clear implicits.
End Py.

Notation "x <- m ;; k" := (Py.bind m (fun x => k))
  (at level 61, m at next level, right associativity).
Notation "m ;;; k" := (Py.bind m (fun _ => k))
  (at level 61, right associativity).

(** ** Values, frames and snapshots *)

(** A value of the traced program, as far as the debugger looks at it: it
    only formats values in f-strings. An object of another class is given
    by what its [__str__] does: it returns a string, or fails with an error
    of the [Exception] class. *)
Inductive PyValue : Type :=
| PyInt (n : Z)
| PyStr (s : string)
| PyBool (b : bool)
| PyNone
| PyObject (str_ : string)
| PyBrokenObject (cls : string) (msg : string).

(** [f"{v}"] *)
Definition format_value (v : PyValue) : result string :=
  match v with
  | PyInt n => Ok (str_int n)
  | PyStr s => Ok s
  | PyBool true => Ok "True"
  | PyBool false => Ok "False"
  | PyNone => Ok "None"
  | PyObject s => Ok s
  | PyBrokenObject cls msg => Raise (Exception cls msg)
  end.

Definition dict := list (string * PyValue).

(** [k in d] and [d[k]]. *)
Fixpoint dict_lookup {V} (d : list (string * V)) (k : string) : option V :=
  match d with
  | [] => None
  | (k', v) :: d' => if String.eqb k k' then Some v else dict_lookup d' k
  end.

(** [d.get(k, default)] *)
Definition dict_get (d : dict) (k : string) (default : PyValue) : PyValue :=
  match dict_lookup d k with
  | Some v => v
  | None => default
  end.

(** A frame object of the traced program. *)
Record PyFrame : Type := {
  f_code_co_filename : string;
  f_lineno : Z;
  f_locals : dict;
  f_globals : dict
}.

(** What [current_frame] holds. The attribute is declared
    [inspect.FrameInfo | None]; [inspect.getframeinfo], which fills it,
    returns an [inspect.Traceback]: the named tuple
    (filename, lineno, function, code_context, index), that is a
    [FrameInfo] without its first field [frame]. Of these fields the
    debugger reads [filename] and [lineno] only. *)
Inductive FrameSnapshot : Type :=
| Traceback (filename : string) (lineno : Z)
| FrameInfo (frame : PyFrame) (filename : string) (lineno : Z).

Definition filename (fi : FrameSnapshot) : string :=
  match fi with
  | Traceback f _ => f
  | FrameInfo _ f _ => f
  end.

Definition lineno (fi : FrameSnapshot) : Z :=
  match fi with
  | Traceback _ l => l
  | FrameInfo _ _ l => l
  end.

(** [inspect.getframeinfo(frame)] *)
Definition getframeinfo (frame : PyFrame) : FrameSnapshot :=
  Traceback (f_code_co_filename frame) (f_lineno frame).

(** [self.current_frame.frame] *)
Definition attr_frame (cf : option FrameSnapshot) : result PyFrame :=
  match cf with
  | None => Raise (AttributeError "NoneType" "frame")
  | Some (Traceback _ _) => Raise (AttributeError "Traceback" "frame")
  | Some (FrameInfo fr _ _) => Ok fr
  end.

(** The truth value of [self.current_frame]: [None] is false, a named
    tuple with fields is true. *)
Definition truthy (cf : option FrameSnapshot) : bool :=
  match cf with
  | None => false
  | Some _ => true
  end.

(** [range(a, b)] *)
Definition range (a b : Z) : list Z :=
  map (fun i => a + Z.of_nat i) (seq 0 (Z.to_nat (b - a))).

(** ** The debugger *)

(** The attributes of a [SimpleDebugger] that change; [commands] is filled
    once by [__init__] and is the constant table [commands] below. *)
Record SimpleDebugger : Type := {
  step_mode : bool;
  continue_mode : bool;
  current_frame : option FrameSnapshot
}.

(** [SimpleDebugger()] *)
Definition __init__ : SimpleDebugger :=
  {| step_mode := false; continue_mode := false; current_frame := None |}.

Definition set_step_mode (b : bool) (self : SimpleDebugger) : SimpleDebugger :=
  {| step_mode := b;
     continue_mode := continue_mode self;
     current_frame := current_frame self |}.

Definition set_continue_mode (b : bool) (self : SimpleDebugger)
  : SimpleDebugger :=
  {| step_mode := step_mode self;
     continue_mode := b;
     current_frame := current_frame self |}.

Definition set_current_frame (cf : option FrameSnapshot)
    (self : SimpleDebugger) : SimpleDebugger :=
  {| step_mode := step_mode self;
     continue_mode := continue_mode self;
     current_frame := cf |}.

(** What [trace_function] returns: itself, or [None]. *)
Inductive callable : Type := self_trace_function.

(** How a call that reads the operator's script ends: it returns, an
    exception leaves it, or it is still blocked in [input] when the script
    is used up. [rest] is the part of the script not read yet. *)
Inductive outcome (S A : Type) : Type :=
| Returned (a : A) (self : S) (out : console) (rest : list input_event)
| Propagated (e : BaseException) (self : S) (out : console)
    (rest : list input_event)
| AwaitingInput (self : S) (out : console).
Arguments Returned {S A} a self out rest.
Arguments Propagated {S A} e self out rest.
Arguments AwaitingInput {S A} self out.

(** What was printed before a call, put in front of what it prints. *)
Definition after_output {S A} (o : console) (oc : outcome S A) : outcome S A :=
  match oc with
  | Returned a self out rest => Returned a self (o ++ out)%list rest
  | Propagated e self out rest => Propagated e self (o ++ out)%list rest
  | AwaitingInput self out => AwaitingInput self (o ++ out)%list
  end.

(** How one turn of the [while True] loop ends. *)
Inductive loop_control : Type := Break | Continue.

(** [input(prompt)], given what the operator does. *)
Definition input {S} (ev : input_event) : Py.M S string :=
  match ev with
  | Entered line => Py.ret line
  | Interrupt => Py.raise KeyboardInterrupt
  | EndOfInput => Py.raise EOFError
  end.

Definition prompt_text : string := "(SimpleDebugger) ".

Section Debugger.

(** The source files as [linecache] sees them: the lines of a file, each
    with its terminator; no line for a file that cannot be read. *)
Variable getlines : string -> list string.

(** [linecache.getline(filename, lineno)] *)
Definition getline (filename : string) (lineno : Z) : string :=
  if (1 <=? lineno) && (lineno <=? Z.of_nat (List.length (getlines filename)))
  then nth (Z.to_nat (lineno - 1)) (getlines filename) EmptyString
  else EmptyString.

Definition _help (arg : string) : Py.M SimpleDebugger unit :=
  Py.print (nl ++ "Available commands:") ;;;
  Py.print "h: Show this help" ;;;
  Py.print "n: Step to next line" ;;;
  Py.print "p <var>: Print variable value" ;;;
  Py.print "l: List source code around current line" ;;;
  Py.print "c: Continue execution" ;;;
  Py.print "v: Show all local variables" ;;;
  Py.print "q: Quit debugging".

Definition _step (arg : string) : Py.M SimpleDebugger unit :=
  self <- Py.get ;;
  Py.put (set_step_mode true self).

Definition _continue (arg : string) : Py.M SimpleDebugger unit :=
  self <- Py.get ;;
  Py.put (set_continue_mode true self).

Definition _print_variable (arg : string) : Py.M SimpleDebugger unit :=
  if str_is_empty arg then
    Py.print "Usage: p <variable_name>"
  else
    Py.try_except_Exception
      (self <- Py.get ;;
       frame <- Py.lift (attr_frame (current_frame self)) ;;
       let value :=
         dict_get (f_locals frame) arg
           (dict_get (f_globals frame) arg (PyStr "<not found>")) in
       text <- Py.lift (format_value value) ;;
       Py.print (arg ++ " = " ++ text))
      (fun e => Py.print ("Error accessing variable: " ++ e)).

Definition _list_variables (arg : string) : Py.M SimpleDebugger unit :=
  self <- Py.get ;;
  if truthy (current_frame self) then
    frame <- Py.lift (attr_frame (current_frame self)) ;;
    let locals_dict := f_locals frame in
    Py.for_each locals_dict (fun '(name, value) =>
      text <- Py.lift (format_value value) ;;
      Py.print (name ++ " = " ++ text))
  else Py.ret tt.

Definition _list_source (arg : string) : Py.M SimpleDebugger unit :=
  self <- Py.get ;;
  if negb (truthy (current_frame self)) then Py.ret tt
  else
    frame <- Py.lift (attr_frame (current_frame self)) ;;
    let filename := f_code_co_filename frame in
    let current_line := f_lineno frame in
    let start_line := Z.max (current_line - 5) 1 in
    let end_line := current_line + 5 in
    Py.print (nl ++ "Source code around line " ++ str_int current_line ++ ":") ;;;
    Py.for_each (range start_line (end_line + 1)) (fun line_num =>
      let line := rstrip (getline filename line_num) in
      let marker := if line_num =? current_line then "-->" else "   " in
      Py.print (marker ++ " " ++ format_4d line_num ++ " " ++ line)).

Definition _quit (arg : string) : Py.M SimpleDebugger unit :=
  Py.raise (SystemExit 0).

(** [self.commands] *)
Definition commands : list (string * (string -> Py.M SimpleDebugger unit)) :=
  [ ("h", _help);
    ("n", _step);
    ("p", _print_variable);
    ("l", _list_source);
    ("c", _continue);
    ("v", _list_variables);
    ("q", _quit) ].

Definition _show_current_line : Py.M SimpleDebugger unit :=
  self <- Py.get ;;
  match current_frame self with
  | Some fi =>
      let line := strip (getline (filename fi) (lineno fi)) in
      Py.print (nl ++ "At " ++ filename fi ++ ":" ++ str_int (lineno fi)) ;;;
      Py.print ("--> " ++ line)
  | None => Py.ret tt
  end.

(** [command in ['n', 'c']] *)
Definition resumes (command : string) : bool :=
  String.eqb command "n" || String.eqb command "c".

(** The body of the [try] statement in the loop of [_prompt_command],
    for what [input] yields in this turn; [continue] and falling off the
    end both give [Continue]. *)
Definition prompt_try_body (ev : input_event)
  : Py.M SimpleDebugger loop_control :=
  cmd <- input ev ;;
  if str_is_empty cmd then Py.ret Continue
  else
    match split_maxsplit_1 cmd with
    | [] => Py.raise ValueError_unpack
    | command :: args =>
        let arg := match args with a :: _ => a | [] => EmptyString end in
        match dict_lookup commands command with
        | Some handler =>
            handler arg ;;;
            if resumes command then Py.ret Break else Py.ret Continue
        | None =>
            Py.print ("Unknown command: " ++ command) ;;;
            _help EmptyString ;;;
            Py.ret Continue
        end
    end.

(** One turn of the loop: the [try] statement with its two handlers. *)
Definition prompt_turn (ev : input_event)
  : Py.M SimpleDebugger loop_control :=
  Py.try_except_KeyboardInterrupt_Exception
    (prompt_try_body ev)
    (Py.print (nl ++ "Use 'q' to quit") ;;; Py.ret Continue)
    (fun e => Py.print ("Error: " ++ e) ;;; Py.ret Continue).

(** [_prompt_command]: every turn writes the prompt and reads the
    script. *)
Fixpoint _prompt_command (script : list input_event) (self : SimpleDebugger)
  : outcome SimpleDebugger unit :=
  match script with
  | [] => AwaitingInput self [Prompt prompt_text]
  | ev :: rest =>
      let '(r, self1, o1) := prompt_turn ev self in
      after_output (Prompt prompt_text :: o1)
        match r with
        | Ok Break => Returned tt self1 [] rest
        | Ok Continue => _prompt_command rest self1
        | Raise e => Propagated e self1 [] rest
        end
  end.

(** [trace_function(frame, event, arg)]; [arg] is not used. *)
Definition trace_function (frame : PyFrame) (event : string)
    (script : list input_event) (self : SimpleDebugger)
  : outcome SimpleDebugger (option callable) :=
  let finish (self : SimpleDebugger) (rest : list input_event) :=
    Returned
      (if negb (continue_mode self) then Some self_trace_function else None)
      self [] rest in
  if String.eqb event "line" then
    let self1 := set_current_frame (Some (getframeinfo frame)) self in
    if negb (continue_mode self1) then
      let '(r, self2, o2) := _show_current_line self1 in
      after_output o2
        match r with
        | Raise e => Propagated e self2 [] script
        | Ok _ =>
            match _prompt_command script self2 with
            | Returned _ self3 o3 rest =>
                after_output o3 (finish (set_step_mode false self3) rest)
            | Propagated e self3 o3 rest => Propagated e self3 o3 rest
            | AwaitingInput self3 o3 => AwaitingInput self3 o3
            end
        end
    else finish (set_step_mode false self1) script
  else finish self script.

End Debugger.

(** ** The debugger without [step_mode]

    The same program with the attribute [step_mode] and its two assignments
    (in [_step] and at the end of a line event in [trace_function]) taken
    out; everything else is as above. It is what [SimpleDebugger] is
    compared with. *)
Module Flagless.

Record Debugger : Type := {
  continue_mode : bool;
  current_frame : option FrameSnapshot
}.

Definition set_continue_mode (b : bool) (self : Debugger) : Debugger :=
  {| continue_mode := b; current_frame := current_frame self |}.

Definition set_current_frame (cf : option FrameSnapshot) (self : Debugger)
  : Debugger :=
  {| continue_mode := continue_mode self; current_frame := cf |}.

Section Debugger.

Variable getlines : string -> list string.

Definition _help (arg : string) : Py.M Debugger unit :=
  Py.print (nl ++ "Available commands:") ;;;
  Py.print "h: Show this help" ;;;
  Py.print "n: Step to next line" ;;;
  Py.print "p <var>: Print variable value" ;;;
  Py.print "l: List source code around current line" ;;;
  Py.print "c: Continue execution" ;;;
  Py.print "v: Show all local variables" ;;;
  Py.print "q: Quit debugging".

(** Nothing is left of [_step] but its return. *)
Definition _step (arg : string) : Py.M Debugger unit := Py.ret tt.

Definition _continue (arg : string) : Py.M Debugger unit :=
  self <- Py.get ;;
  Py.put (set_continue_mode true self).

Definition _print_variable (arg : string) : Py.M Debugger unit :=
  if str_is_empty arg then
    Py.print "Usage: p <variable_name>"
  else
    Py.try_except_Exception
      (self <- Py.get ;;
       frame <- Py.lift (attr_frame (current_frame self)) ;;
       let value :=
         dict_get (f_locals frame) arg
           (dict_get (f_globals frame) arg (PyStr "<not found>")) in
       text <- Py.lift (format_value value) ;;
       Py.print (arg ++ " = " ++ text))
      (fun e => Py.print ("Error accessing variable: " ++ e)).

Definition _list_variables (arg : string) : Py.M Debugger unit :=
  self <- Py.get ;;
  if truthy (current_frame self) then
    frame <- Py.lift (attr_frame (current_frame self)) ;;
    let locals_dict := f_locals frame in
    Py.for_each locals_dict (fun '(name, value) =>
      text <- Py.lift (format_value value) ;;
      Py.print (name ++ " = " ++ text))
  else Py.ret tt.

Definition _list_source (arg : string) : Py.M Debugger unit :=
  self <- Py.get ;;
  if negb (truthy (current_frame self)) then Py.ret tt
  else
    frame <- Py.lift (attr_frame (current_frame self)) ;;
    let filename := f_code_co_filename frame in
    let current_line := f_lineno frame in
    let start_line := Z.max (current_line - 5) 1 in
    let end_line := current_line + 5 in
    Py.print (nl ++ "Source code around line " ++ str_int current_line ++ ":") ;;;
    Py.for_each (range start_line (end_line + 1)) (fun line_num =>
      let line := rstrip (getline getlines filename line_num) in
      let marker := if line_num =? current_line then "-->" else "   " in
      Py.print (marker ++ " " ++ format_4d line_num ++ " " ++ line)).

Definition _quit (arg : string) : Py.M Debugger unit :=
  Py.raise (SystemExit 0).

Definition commands : list (string * (string -> Py.M Debugger unit)) :=
  [ ("h", _help);
    ("n", _step);
    ("p", _print_variable);
    ("l", _list_source);
    ("c", _continue);
    ("v", _list_variables);
    ("q", _quit) ].

Definition _show_current_line : Py.M Debugger unit :=
  self <- Py.get ;;
  match current_frame self with
  | Some fi =>
      let line := strip (getline getlines (filename fi) (lineno fi)) in
      Py.print (nl ++ "At " ++ filename fi ++ ":" ++ str_int (lineno fi)) ;;;
      Py.print ("--> " ++ line)
  | None => Py.ret tt
  end.

Definition prompt_try_body (ev : input_event)
  : Py.M Debugger loop_control :=
  cmd <- input ev ;;
  if str_is_empty cmd then Py.ret Continue
  else
    match split_maxsplit_1 cmd with
    | [] => Py.raise ValueError_unpack
    | command :: args =>
        let arg := match args with a :: _ => a | [] => EmptyString end in
        match dict_lookup commands command with
        | Some handler =>
            handler arg ;;;
            if resumes command then Py.ret Break else Py.ret Continue
        | None =>
            Py.print ("Unknown command: " ++ command) ;;;
            _help EmptyString ;;;
            Py.ret Continue
        end
    end.

Definition prompt_turn (ev : input_event) : Py.M Debugger loop_control :=
  Py.try_except_KeyboardInterrupt_Exception
    (prompt_try_body ev)
    (Py.print (nl ++ "Use 'q' to quit") ;;; Py.ret Continue)
    (fun e => Py.print ("Error: " ++ e) ;;; Py.ret Continue).

Fixpoint _prompt_command (script : list input_event) (self : Debugger)
  : outcome Debugger unit :=
  match script with
  | [] => AwaitingInput self [Prompt prompt_text]
  | ev :: rest =>
      let '(r, self1, o1) := prompt_turn ev self in
      after_output (Prompt prompt_text :: o1)
        match r with
        | Ok Break => Returned tt self1 [] rest
        | Ok Continue => _prompt_command rest self1
        | Raise e => Propagated e self1 [] rest
        end
  end.

Definition trace_function (frame : PyFrame) (event : string)
    (script : list input_event) (self : Debugger)
  : outcome Debugger (option callable) :=
  let finish (self : Debugger) (rest : list input_event) :=
    Returned
      (if negb (continue_mode self) then Some self_trace_function else None)
      self [] rest in
  if String.eqb event "line" then
    let self1 := set_current_frame (Some (getframeinfo frame)) self in
    if negb (continue_mode self1) then
      let '(r, self2, o2) := _show_current_line self1 in
      after_output o2
        match r with
        | Raise e => Propagated e self2 [] script
        | Ok _ =>
            match _prompt_command script self2 with
            | Returned _ self3 o3 rest => after_output o3 (finish self3 rest)
            | Propagated e self3 o3 rest => Propagated e self3 o3 rest
            | AwaitingInput self3 o3 => AwaitingInput self3 o3
            end
        end
    else finish self1 script
  else finish self script.

End Debugger.
End Flagless.

(** Forgetting [step_mode]. *)
Definition erase (self : SimpleDebugger) : Flagless.Debugger :=
  {| Flagless.continue_mode := continue_mode self;
     Flagless.current_frame := current_frame self |}.

(** What a call shows to the outside, the debugger object seen through
    [f]. *)
Definition map_outcome {S T A} (f : S -> T) (oc : outcome S A) : outcome T A :=
  match oc with
  | Returned a self out rest => Returned a (f self) out rest
  | Propagated e self out rest => Propagated e (f self) out rest
  | AwaitingInput self out => AwaitingInput (f self) out
  end.

Definition map_run {S T A} (f : S -> T) (r : result A * S * console)
  : result A * T * console :=
  let '(a, self, out) := r in (a, f self, out).

(** ** A session

    The host calls the trace callback once for every event, in turn, on the
    same debugger object; the operator's script is read on. The decisions
    returned are collected. *)
Fixpoint run_events {S : Type}
    (callback : PyFrame -> string -> list input_event -> S ->
                outcome S (option callable))
    (events : list (PyFrame * string)) (script : list input_event) (self : S)
  : outcome S (list (option callable)) :=
  match events with
  | [] => Returned [] self [] script
  | (frame, event) :: events' =>
      match callback frame event script self with
      | Returned d self1 o1 rest =>
          after_output o1
            match run_events callback events' rest self1 with
            | Returned ds self2 o2 rest2 => Returned (d :: ds) self2 o2 rest2
            | Propagated e self2 o2 rest2 => Propagated e self2 o2 rest2
            | AwaitingInput self2 o2 => AwaitingInput self2 o2
            end
      | Propagated e self1 o1 rest => Propagated e self1 o1 rest
      | AwaitingInput self1 o1 => AwaitingInput self1 o1
      end
  end.

(** ** A small traced program, for concrete runs *)

(** The file [demo.py], four lines. *)
Definition demo_getlines (filename : string) : list string :=
  if String.eqb filename "demo.py" then
    [ "def f(n):" ++ nl;
      "    x = 1" ++ nl;
      "    y = x + n" ++ nl;
      "    return y" ++ nl ]
  else [].

(** Its frame when line 3 is about to run. *)
Definition demo_frame : PyFrame :=
  {| f_code_co_filename := "demo.py";
     f_lineno := 3;
     f_locals := [("n", PyInt 3); ("x", PyInt 1)];
     f_globals := [("x", PyStr "global x"); ("g", PyStr "only global")] |}.

(** The debugger as a line event on that frame leaves it for the prompt
    loop. *)
Definition demo_at_line_3 : SimpleDebugger :=
  set_current_frame (Some (getframeinfo demo_frame)) __init__.

(** A debugger whose snapshot is a true [FrameInfo] of that frame. *)
Definition demo_with_FrameInfo : SimpleDebugger :=
  {| step_mode := false;
     continue_mode := false;
     current_frame := Some (FrameInfo demo_frame "demo.py" 3) |}.

(** ** Predicates on methods *)

(** A result that the prompt loop contains: a return, or an error of the
    [Exception] class. *)
Definition contained {A} (r : result A) : Prop :=
  match r with
  | Ok _ => True
  | Raise (Exception _ _) => True
  | Raise _ => False
  end.

(** A method that only looks: it leaves the debugger object as it is and
    ends in a contained result. *)
Definition inspects {S A} (m : Py.M S A) : Prop :=
  forall self, exists r out, m self = (r, self, out) /\ contained r.

(** A method that only looks and always returns. *)
Definition reports {S A} (m : Py.M S A) : Prop :=
  forall self, exists a out, m self = (Ok a, self, out).

(** The console lines of [_help]. *)
Definition help_text : console :=
  [ Print (nl ++ "Available commands:");
    Print "h: Show this help";
    Print "n: Step to next line";
    Print "p <var>: Print variable value";
    Print "l: List source code around current line";
    Print "c: Continue execution";
    Print "v: Show all local variables";
    Print "q: Quit debugging" ].

(** The argument handed to a handler: [args[0] if args else '']. *)
Definition first_arg (args : list string) : string :=
  match args with a :: _ => a | [] => EmptyString end.

(** The line that [_list_source] prints for [line_num]. *)
Definition source_line (getlines : string -> list string) (filename : string)
    (current_line line_num : Z) : console_event :=
  Print ((if line_num =? current_line then "-->" else "   ") ++ " "
         ++ format_4d line_num ++ " "
         ++ rstrip (getline getlines filename line_num)).

(** The prompt loop ends on a line: whatever the operator would enter
    next, [_prompt_command] returns with all of it still to be read. *)
Definition resumes_execution (getlines : string -> list string)
    (line : string) (self : SimpleDebugger) : Prop :=
  forall rest, exists self' out,
    _prompt_command getlines (Entered line :: rest) self
    = Returned tt self' out rest.

(** What [trace_function] returns for a debugger object. *)
Definition decision (self : SimpleDebugger) : option callable :=
  if negb (continue_mode self) then Some self_trace_function else None.

(** What [_show_current_line] prints for a snapshot. *)
Definition shown_line (getlines : string -> list string)
    (fi : FrameSnapshot) : console :=
  [ Print (nl ++ "At " ++ filename fi ++ ":" ++ str_int (lineno fi));
    Print ("--> " ++ strip (getline getlines (filename fi) (lineno fi))) ].

(** The value that [_print_variable] looks up in a frame. *)
Definition lookup_variable (frame : PyFrame) (name : string) : PyValue :=
  dict_get (f_locals frame) name
    (dict_get (f_globals frame) name (PyStr "<not found>")).

(** A method of the debugger and a method of the debugger without
    [step_mode] do the same: same result, same output, and debugger
    objects that differ in [step_mode] only. *)
Definition simulates {A} (m : Py.M SimpleDebugger A)
    (m' : Py.M Flagless.Debugger A) : Prop :=
  forall self, m' (erase self) = map_run erase (m self).

(** ** The sample workload *)

(** [example_function(n)] for an [int] argument. *)
Definition example_function (n : Z) : Z :=
  let x := 1 in
  let y := 2 in
  let result := x + y + n in
  fold_left (fun result i => result + i) (range 0 n) result.

(** ** Vocabulary for the properties of the prompt loop *)

(** The keys of [self.commands], in the order of the source. *)
Definition command_keys : list string := ["h"; "n"; "p"; "l"; "c"; "v"; "q"].

(** The first word of what the operator entered, if there is one. *)
Definition command_word (ev : input_event) : option string :=
  match ev with
  | Entered line =>
      match split_maxsplit_1 line with
      | command :: _ => Some command
      | [] => None
      end
  | _ => None
  end.

(** An input that is not one of the commands [n], [c] and [q]. *)
Definition inert (ev : input_event) : bool :=
  match command_word ev with
  | Some command =>
      negb (String.eqb command "n" || String.eqb command "c"
            || String.eqb command "q")
  | None => true
  end.


(** The debugger object at the end of a call, however it ends. *)
Definition outcome_self {S A} (oc : outcome S A) : S :=
  match oc with
  | Returned _ self _ _ => self
  | Propagated _ self _ _ => self
  | AwaitingInput self _ => self
  end.

(** What a call has written, however it ends. *)
Definition outcome_output {S A} (oc : outcome S A) : console :=
  match oc with
  | Returned _ _ out _ => out
  | Propagated _ _ out _ => out
  | AwaitingInput _ out => out
  end.

(** How many times the prompt was written. *)
Definition count_prompts (out : console) : nat :=
  List.length (filter (fun e => match e with Prompt _ => true | Print _ => false end) out).

(** A method that writes no prompt. *)
Definition writes_no_prompt {S A} (m : Py.M S A) : Prop :=
  forall self, count_prompts (snd (m self)) = O.

(** The line that [_list_variables] prints for a binding whose value can
    be formatted. *)
Definition binding_line (binding : string * PyValue) : console_event :=
  let (name, value) := binding in
  Print (name ++ " = "
         ++ match format_value value with Ok text => text | Raise _ => "" end).

Definition formats (binding : string * PyValue) : bool :=
  match format_value (snd binding) with Ok _ => true | Raise _ => false end.

(** What a session of line events shows when the operator answers every
    prompt with [n]: each line once, each followed by one prompt. *)
Definition stepping_output (getlines : string -> list string)
    (events : list (PyFrame * string)) : console :=
  flat_map (fun ev => shown_line getlines (getframeinfo (fst ev))
                      ++ [Prompt prompt_text])%list events.

Definition is_line_event (ev : PyFrame * string) : bool :=
  String.eqb (snd ev) "line".



(** * Properties *)

(** ** The monad *)

Section MonadFacts.
Context {S : Type}.

Lemma bind_run {A B} (m : Py.M S A) (f : A -> Py.M S B) (self : S) :
  Py.bind m f self =
  match m self with
  | (Ok a, self1, o1) =>
      match f a self1 with
      | (r2, self2, o2) => (r2, self2, (o1 ++ o2)%list)
      end
  | (Raise e, self1, o1) => (Raise e, self1, o1)
  end.
Proof.
  unfold Py.bind. destruct (m self) as [[[a | e] self1] o1]; [|reflexivity].
  destruct (f a self1) as [[r2 self2] o2]. reflexivity.
Qed.

Lemma inspects_ret {A} (a : A) : inspects (S := S) (Py.ret a).
Proof. intros self. exists (Ok a), []. split; [reflexivity | exact I]. Qed.

Lemma inspects_print text : inspects (S := S) (Py.print text).
Proof. intros self. exists (Ok tt), [Print text]. split; [reflexivity | exact I]. Qed.

Lemma inspects_lift {A} (r : result A) :
  contained r -> inspects (S := S) (Py.lift r).
Proof. intros C self. exists r, []. split; [reflexivity | exact C]. Qed.

Lemma inspects_bind {A B} (m : Py.M S A) (f : A -> Py.M S B) :
  inspects m -> (forall a, inspects (f a)) -> inspects (Py.bind m f).
Proof.
  intros Hm Hf self. destruct (Hm self) as (r & o1 & E & C).
  rewrite bind_run, E. destruct r as [a | e].
  - destruct (Hf a self) as (r2 & o2 & E2 & C2). rewrite E2.
    exists r2, (o1 ++ o2)%list. split; [reflexivity | exact C2].
  - exists (Raise e), o1. split; [reflexivity | exact C].
Qed.

(** Reading [self] first does not change what a method that only looks
    does. *)
Lemma inspects_get {A} (f : S -> Py.M S A) :
  (forall s, inspects (f s)) -> inspects (Py.bind Py.get f).
Proof.
  intros Hf self. rewrite bind_run. simpl.
  destruct (Hf self self) as (r & o & E & C). rewrite E.
  exists r, o. split; [reflexivity | exact C].
Qed.

Lemma inspects_for_each {A} (xs : list A) (body : A -> Py.M S unit) :
  (forall x, inspects (body x)) -> inspects (Py.for_each xs body).
Proof.
  intros Hb. induction xs as [| x xs IH]; simpl.
  - apply inspects_ret.
  - apply inspects_bind; [apply Hb | intros _; exact IH].
Qed.

(** [except Exception] around a method that only looks, with a handler
    that reports, always returns. *)
Lemma reports_try_except {A} (m : Py.M S A) (h : string -> Py.M S A) :
  inspects m -> (forall e, reports (h e)) ->
  reports (Py.try_except_Exception m h).
Proof.
  intros Hm Hh self. unfold Py.try_except_Exception.
  destruct (Hm self) as (r & o1 & E & C). rewrite E.
  destruct r as [a | [| code | cls msg]]; try contradiction.
  - exists a, o1. reflexivity.
  - destruct (Hh msg self) as (a & o2 & E2). rewrite E2.
    exists a, (o1 ++ o2)%list. reflexivity.
Qed.

Lemma reports_print text : reports (S := S) (Py.print text).
Proof. intros self. exists tt, [Print text]. reflexivity. Qed.

End MonadFacts.

(** ** The handlers *)

Section HandlerFacts.
Variable getlines : string -> list string.

Lemma help_run arg self : _help arg self = (Ok tt, self, help_text).
Proof. reflexivity. Qed.

Lemma step_run arg self :
  _step arg self = (Ok tt, set_step_mode true self, []).
Proof. reflexivity. Qed.

Lemma continue_run arg self :
  _continue arg self = (Ok tt, set_continue_mode true self, []).
Proof. reflexivity. Qed.

Lemma quit_run arg self : _quit arg self = (Raise (SystemExit 0), self, []).
Proof. reflexivity. Qed.

Lemma contained_attr_frame cf : contained (attr_frame cf).
Proof. destruct cf as [[f l | fr f l] |]; exact I. Qed.

Lemma contained_format_value v : contained (format_value v).
Proof. destruct v as [n | s | [|] | | s | cls msg]; exact I. Qed.

(** [_print_variable] never raises and never changes the debugger. *)
Lemma print_variable_reports arg : reports (_print_variable arg).
Proof.
  unfold _print_variable. destruct (str_is_empty arg).
  - apply reports_print.
  - apply reports_try_except.
    + apply inspects_get. intros s.
      apply inspects_bind; [apply inspects_lift, contained_attr_frame |].
      intros frame.
      apply inspects_bind; [apply inspects_lift, contained_format_value |].
      intros text. apply inspects_print.
    + intros e. apply reports_print.
Qed.

Lemma list_variables_inspects arg : inspects (_list_variables arg).
Proof.
  unfold _list_variables. apply inspects_get. intros s.
  destruct (truthy (current_frame s)); [| apply inspects_ret].
  apply inspects_bind; [apply inspects_lift, contained_attr_frame |].
  intros frame. apply inspects_for_each. intros [name value].
  apply inspects_bind; [apply inspects_lift, contained_format_value |].
  intros text. apply inspects_print.
Qed.

Lemma list_source_inspects arg : inspects (_list_source getlines arg).
Proof.
  unfold _list_source. apply inspects_get. intros s.
  destruct (negb (truthy (current_frame s))); [apply inspects_ret |].
  apply inspects_bind; [apply inspects_lift, contained_attr_frame |].
  intros frame. apply inspects_bind; [apply inspects_print |].
  intros _. apply inspects_for_each. intros line_num. apply inspects_print.
Qed.

(** The seven entries of the command table. *)
Lemma commands_cases command handler :
  dict_lookup (commands getlines) command = Some handler ->
  (command = "h" /\ handler = _help)
  \/ (command = "n" /\ handler = _step)
  \/ (command = "p" /\ handler = _print_variable)
  \/ (command = "l" /\ handler = _list_source getlines)
  \/ (command = "c" /\ handler = _continue)
  \/ (command = "v" /\ handler = _list_variables)
  \/ (command = "q" /\ handler = _quit).
Proof.
  unfold commands, dict_lookup.
  repeat match goal with
         | |- context [String.eqb command ?k] =>
             destruct (String.eqb_spec command k) as [-> | _]
         end;
    intros H; inversion H; subst; tauto.
Qed.

(** Every handler leaves [current_frame] alone, and ends in a contained
    result unless it is [_quit]. *)
Lemma handler_run command handler arg self :
  dict_lookup (commands getlines) command = Some handler ->
  exists r self1 out,
    handler arg self = (r, self1, out)
    /\ current_frame self1 = current_frame self
    /\ (contained r \/ (command = "q" /\ r = Raise (SystemExit 0))).
Proof.
  intros H.
  destruct (commands_cases _ _ H)
    as [[-> ->] | [[-> ->] | [[-> ->] | [[-> ->] | [[-> ->] | [[-> ->] | [-> ->]]]]]]].
  - exists (Ok tt), self, help_text. repeat split. left; exact I.
  - exists (Ok tt), (set_step_mode true self), []. repeat split. left; exact I.
  - destruct (print_variable_reports arg self) as (a & o & E).
    exists (Ok a), self, o. repeat split; [exact E | left; exact I].
  - destruct (list_source_inspects arg self) as (r & o & E & C).
    exists r, self, o. repeat split; [exact E | left; exact C].
  - exists (Ok tt), (set_continue_mode true self), []. repeat split.
    left; exact I.
  - destruct (list_variables_inspects arg self) as (r & o & E & C).
    exists r, self, o. repeat split; [exact E | left; exact C].
  - exists (Raise (SystemExit 0)), self, []. repeat split. right. split; reflexivity.
Qed.

(** ** One turn of the prompt loop *)

Lemma entered_not_empty line command args :
  split_maxsplit_1 line = command :: args -> str_is_empty line = false.
Proof. destruct line; [discriminate | reflexivity]. Qed.

(** A line whose first word is in the table runs the handler of that
    word and then looks at the word again. *)
Lemma try_body_of_handler line command args handler self :
  split_maxsplit_1 line = command :: args ->
  dict_lookup (commands getlines) command = Some handler ->
  prompt_try_body getlines (Entered line) self =
  match handler (first_arg args) self with
  | (Ok _, self1, o1) =>
      (Ok (if resumes command then Break else Continue), self1, o1)
  | (Raise e, self1, o1) => (Raise e, self1, o1)
  end.
Proof.
  intros Hs Hl. unfold prompt_try_body. rewrite bind_run.
  cbn [input Py.ret]. rewrite (entered_not_empty _ _ _ Hs), Hs, Hl.
  rewrite bind_run. fold (first_arg args).
  destruct (handler (first_arg args) self) as [[[[] | e] self1] o1];
    [| reflexivity].
  destruct (resumes command); cbn [Py.ret app]; rewrite app_nil_r;
    reflexivity.
Qed.

Lemma turn_of_handler line command args handler self :
  split_maxsplit_1 line = command :: args ->
  dict_lookup (commands getlines) command = Some handler ->
  prompt_turn getlines (Entered line) self =
  match handler (first_arg args) self with
  | (Ok _, self1, o1) =>
      (Ok (if resumes command then Break else Continue), self1, o1)
  | (Raise KeyboardInterrupt, self1, o1) =>
      (Ok Continue, self1, (o1 ++ [Print (nl ++ "Use 'q' to quit")])%list)
  | (Raise (Exception _ msg), self1, o1) =>
      (Ok Continue, self1, (o1 ++ [Print ("Error: " ++ msg)])%list)
  | (Raise (SystemExit code), self1, o1) =>
      (Raise (SystemExit code), self1, o1)
  end.
Proof.
  intros Hs Hl. unfold prompt_turn, Py.try_except_KeyboardInterrupt_Exception.
  rewrite (try_body_of_handler _ _ _ _ _ Hs Hl).
  destruct (handler (first_arg args) self)
    as [[[[] | [| code | cls msg]] self1] o1]; reflexivity.
Qed.

(** Unfolding the loop by one turn. *)
Lemma prompt_command_turn ev rest self :
  _prompt_command getlines (ev :: rest) self =
  match prompt_turn getlines ev self with
  | (Ok Break, self1, o1) =>
      Returned tt self1 (Prompt prompt_text :: o1) rest
  | (Ok Continue, self1, o1) =>
      after_output (Prompt prompt_text :: o1)
        (_prompt_command getlines rest self1)
  | (Raise e, self1, o1) =>
      Propagated e self1 (Prompt prompt_text :: o1) rest
  end.
Proof.
  simpl. destruct (prompt_turn getlines ev self) as [[[[|] | e] self1] o1];
    simpl; rewrite ?app_nil_r; reflexivity.
Qed.
End HandlerFacts.

(** ** The prompt loop: which commands resume execution *)

Section PromptLoop.
Variable getlines : string -> list string.

(** Every call of the loop starts by writing the prompt. *)
Lemma prompt_command_prompts script self :
  exists oc,
    _prompt_command getlines script self
    = after_output [Prompt prompt_text] oc.
Proof.
  destruct script as [| ev rest].
  - exists (AwaitingInput self []). reflexivity.
  - rewrite prompt_command_turn.
    destruct (prompt_turn getlines ev self) as [[[[|] | e] self1] o1].
    + exists (Returned tt self1 o1 rest). reflexivity.
    + exists (after_output o1 (_prompt_command getlines rest self1)).
      destruct (_prompt_command getlines rest self1); reflexivity.
    + exists (Propagated e self1 o1 rest). reflexivity.
Qed.

(** A loop that goes on after a turn has not returned with the rest of
    the script unread when that rest is empty. *)
Lemma continue_does_not_resume line self self1 o1 :
  prompt_turn getlines (Entered line) self = (Ok Continue, self1, o1) ->
  ~ resumes_execution getlines line self.
Proof.
  intros E H. destruct (H []) as (self' & out & R).
  rewrite prompt_command_turn, E in R. discriminate R.
Qed.

Lemma resumes_spec command :
  resumes command = true <-> command = "n" \/ command = "c".
Proof.
  unfold resumes. rewrite orb_true_iff, !String.eqb_eq. reflexivity.
Qed.

(** What follows the command word on a line is never empty. *)
Lemma split_argument_not_empty line command arg :
  split_maxsplit_1 line = [command; arg] -> str_is_empty arg = false.
Proof.
  unfold split_maxsplit_1. destruct (lstrip line) as [| c s]; [discriminate |].
  destruct (span_word (String c s)) as [w r].
  destruct (lstrip r) as [| c' r']; intros H; inversion H; reflexivity.
Qed.

(** With a name, [_print_variable] prints exactly one line, the name with
    a value or its own error line, returns, and leaves the debugger as it
    is. *)
Lemma print_variable_prints_one_line arg self :
  str_is_empty arg = false ->
  exists text,
    ((exists value, text = arg ++ " = " ++ value)
     \/ (exists msg, text = "Error accessing variable: " ++ msg))
    /\ _print_variable arg self = (Ok tt, self, [Print text]).
Proof.
  intros Ha. unfold _print_variable, Py.try_except_Exception.
  rewrite Ha, bind_run. cbn [Py.get]. rewrite bind_run.
  destruct (current_frame self) as [[f l | frame f l] |];
    cbn [attr_frame Py.lift].
  - eexists. split; [right; eexists; reflexivity | reflexivity].
  - rewrite bind_run. cbn [Py.lift].
    pose proof (contained_format_value
                  (dict_get (f_locals frame) arg
                     (dict_get (f_globals frame) arg (PyStr "<not found>"))))
      as C.
    destruct (format_value
                (dict_get (f_locals frame) arg
                   (dict_get (f_globals frame) arg (PyStr "<not found>"))))
      as [value | [| code | cls msg]]; try contradiction.
    + eexists. split; [left; eexists; reflexivity | reflexivity].
    + eexists. split; [right; eexists; reflexivity | reflexivity].
  - eexists. split; [right; eexists; reflexivity | reflexivity].
Qed.

(** C1 (amended). When the operator enters the print command [p] with a
    non-empty argument, the prompt loop keeps prompting: the handler
    prints one line (the name with a value, or its error line) and
    returns, the debugger object is as before, the loop does not end and
    goes on with the next prompt read, so the traced program does not
    advance. *)
Theorem print_command_keeps_prompting line arg rest self :
  split_maxsplit_1 line = ["p"; arg] ->
  exists text,
    ((exists value, text = arg ++ " = " ++ value)
     \/ (exists msg, text = "Error accessing variable: " ++ msg))
    /\ prompt_turn getlines (Entered line) self
       = (Ok Continue, self, [Print text])
    /\ _prompt_command getlines (Entered line :: rest) self
       = after_output [Prompt prompt_text; Print text]
           (_prompt_command getlines rest self)
    /\ ~ resumes_execution getlines line self.
Proof.
  intros Hs.
  destruct (print_variable_prints_one_line arg self
              (split_argument_not_empty _ _ _ Hs))
    as (text & Ht & E).
  assert (T : prompt_turn getlines (Entered line) self
              = (Ok Continue, self, [Print text])).
  { rewrite (turn_of_handler getlines line "p" [arg] _print_variable self Hs
               eq_refl).
    cbn [first_arg]. rewrite E. reflexivity. }
  exists text. split; [exact Ht | split; [exact T | split]].
  - rewrite prompt_command_turn, T. reflexivity.
  - exact (continue_does_not_resume _ _ _ _ T).
Qed.

(** C2. For an input line whose command key is in the command table and
    whose handler returns, the prompt loop ends on that line if and only
    if the key is [n] or [c]; after any other such command the loop goes
    on with another prompt read. *)
Theorem resume_iff_step_or_continue
    line command args handler self self1 out :
  split_maxsplit_1 line = command :: args ->
  dict_lookup (commands getlines) command = Some handler ->
  handler (first_arg args) self = (Ok tt, self1, out) ->
  (resumes_execution getlines line self
   <-> (command = "n" \/ command = "c"))
  /\ (~ (command = "n" \/ command = "c") ->
      forall rest,
        _prompt_command getlines (Entered line :: rest) self
        = after_output (Prompt prompt_text :: out)
            (_prompt_command getlines rest self1)).
Proof.
  intros Hs Hl Hh.
  pose proof (turn_of_handler getlines line command args handler self Hs Hl)
    as T.
  rewrite Hh in T.
  destruct (resumes command) eqn:R.
  - apply resumes_spec in R. split.
    + split; [intros _; exact R |].
      intros _ rest. exists self1, (Prompt prompt_text :: out).
      rewrite prompt_command_turn, T. reflexivity.
    + intros N. contradiction.
  - assert (N : ~ (command = "n" \/ command = "c")).
    { intros C. apply resumes_spec in C. congruence. }
    split.
    + split; [| intros C; contradiction].
      intros H. exfalso.
      exact (continue_does_not_resume _ _ _ _ T H).
    + intros _ rest. rewrite prompt_command_turn, T. reflexivity.
Qed.
End PromptLoop.

(** C1 as stated fails: the debugger stops at line 3 of [demo.py] and the
    operator enters [p x]; the loop does not end, and with nothing more to
    read the callback is still waiting at the next prompt, so the traced
    program has not advanced. *)
Lemma print_command_does_not_resume :
  split_maxsplit_1 "p x" = ["p"; "x"]
  /\ (exists self out,
        trace_function demo_getlines demo_frame "line" [Entered "p x"] __init__
        = AwaitingInput self out)
  /\ ~ resumes_execution demo_getlines "p x" demo_at_line_3.
Proof.
  split; [reflexivity | split].
  - eexists. eexists. reflexivity.
  - intros H. destruct (H []) as (self' & out & R). discriminate R.
Qed.

Lemma print_command_keeps_prompting_witness :
  split_maxsplit_1 "p x" = ["p"; "x"]
  /\ exists text,
      ((exists value, text = "x" ++ " = " ++ value)
       \/ (exists msg, text = "Error accessing variable: " ++ msg))
      /\ prompt_turn demo_getlines (Entered "p x") demo_at_line_3
         = (Ok Continue, demo_at_line_3, [Print text])
      /\ _prompt_command demo_getlines [Entered "p x"; Entered "n"]
           demo_at_line_3
         = after_output [Prompt prompt_text; Print text]
             (_prompt_command demo_getlines [Entered "n"] demo_at_line_3)
      /\ ~ resumes_execution demo_getlines "p x" demo_at_line_3.
Proof.
  split; [reflexivity |].
  apply (print_command_keeps_prompting demo_getlines "p x" "x").
  reflexivity.
Defined.

Lemma resume_iff_step_or_continue_witness :
  (resumes_execution demo_getlines "n" __init__
   <-> ("n" = "n" \/ "n" = "c"))
  /\ (~ ("n" = "n" \/ "n" = "c") ->
      forall rest,
        _prompt_command demo_getlines (Entered "n" :: rest) __init__
        = after_output (Prompt prompt_text :: [])
            (_prompt_command demo_getlines rest (set_step_mode true __init__))).
Proof.
  apply (resume_iff_step_or_continue demo_getlines "n" "n" [] _step
           __init__ (set_step_mode true __init__) []);
    reflexivity.
Defined.

(** ** The trace callback *)

Section TraceCallback.
Variable getlines : string -> list string.

Lemma show_current_line_run self fi :
  current_frame self = Some fi ->
  _show_current_line getlines self = (Ok tt, self, shown_line getlines fi).
Proof.
  intros E. unfold _show_current_line. rewrite bind_run.
  cbn [Py.get]. rewrite E. reflexivity.
Qed.

(** A line event while not continuing: the snapshot is replaced, the
    line is shown, the prompt loop runs, and on its return [step_mode]
    is cleared. *)
Lemma trace_line_prompting frame script self :
  continue_mode self = false ->
  let self1 := set_current_frame (Some (getframeinfo frame)) self in
  trace_function getlines frame "line" script self =
  after_output (shown_line getlines (getframeinfo frame))
    match _prompt_command getlines script self1 with
    | Returned _ self3 o3 rest =>
        Returned (decision self3) (set_step_mode false self3) o3 rest
    | Propagated e self3 o3 rest => Propagated e self3 o3 rest
    | AwaitingInput self3 o3 => AwaitingInput self3 o3
    end.
Proof.
  intros C self1. unfold trace_function. cbn [String.eqb Ascii.eqb Bool.eqb].
  cbn [andb]. fold self1.
  replace (continue_mode self1) with false by (symmetry; exact C).
  cbn [negb]. rewrite (show_current_line_run self1 _ eq_refl).
  destruct (_prompt_command getlines script self1); try reflexivity.
  cbn [after_output]. rewrite app_nil_r. reflexivity.
Qed.

(** A line event while continuing: nothing is shown, nothing is read. *)
Lemma trace_line_continuing frame script self :
  continue_mode self = true ->
  trace_function getlines frame "line" script self =
  Returned None
    (set_step_mode false (set_current_frame (Some (getframeinfo frame)) self))
    [] script.
Proof.
  intros C. unfold trace_function. cbn [String.eqb Ascii.eqb Bool.eqb andb].
  cbn [set_current_frame continue_mode set_step_mode]. rewrite C. reflexivity.
Qed.

(** Any other event. *)
Lemma trace_other_event frame event script self :
  event <> "line" ->
  trace_function getlines frame event script self =
  Returned (decision self) self [] script.
Proof.
  intros N. unfold trace_function.
  destruct (String.eqb_spec event "line") as [E | _]; [contradiction |].
  reflexivity.
Qed.

(** Whenever the callback returns from a line event, [step_mode] is
    false. *)
Lemma returned_with_step_mode_reset frame script self d self' out rest :
  trace_function getlines frame "line" script self
  = Returned d self' out rest ->
  step_mode self' = false.
Proof.
  destruct (continue_mode self) eqn:C.
  - rewrite (trace_line_continuing _ _ _ C). intros H. inversion H. reflexivity.
  - rewrite (trace_line_prompting _ _ _ C).
    destruct (_prompt_command getlines script
                (set_current_frame (Some (getframeinfo frame)) self));
      cbn [after_output]; intros H; inversion H. reflexivity.
Qed.

(** The callback does return from a line event on which the operator
    enters [n]: the handler has set [step_mode], and the callback clears
    it before it returns itself. *)
Lemma trace_function_returns_after_step frame line args rest self :
  continue_mode self = false ->
  split_maxsplit_1 line = "n" :: args ->
  let self1 := set_current_frame (Some (getframeinfo frame)) self in
  prompt_turn getlines (Entered line) self1
  = (Ok Break, set_step_mode true self1, [])
  /\ trace_function getlines frame "line" (Entered line :: rest) self
     = Returned (Some self_trace_function) (set_step_mode false self1)
         (shown_line getlines (getframeinfo frame) ++ [Prompt prompt_text])%list rest.
Proof.
  intros C Hs self1.
  assert (T : prompt_turn getlines (Entered line) self1
              = (Ok Break, set_step_mode true self1, [])).
  { rewrite (turn_of_handler getlines line "n" args _step self1 Hs eq_refl).
    reflexivity. }
  split; [exact T |].
  rewrite (trace_line_prompting _ _ _ C). fold self1.
  rewrite prompt_command_turn, T. cbn [after_output].
  unfold decision. cbn [set_step_mode continue_mode].
  replace (continue_mode self1) with false by (symmetry; exact C).
  reflexivity.
Qed.

(** C5. When the trace callback returns from a line event, [step_mode]
    is false, whatever the operator entered in the prompt loop. This
    holds after [n] too: its handler sets the flag, the loop ends, and the
    callback returns with the flag cleared. *)
Theorem step_mode_reset_on_return frame self :
  (forall script d self' out rest,
     trace_function getlines frame "line" script self
     = Returned d self' out rest ->
     step_mode self' = false)
  /\ (forall line args rest,
        continue_mode self = false ->
        split_maxsplit_1 line = "n" :: args ->
        let self1 := set_current_frame (Some (getframeinfo frame)) self in
        exists d self' out,
          prompt_turn getlines (Entered line) self1
          = (Ok Break, set_step_mode true self1, [])
          /\ trace_function getlines frame "line" (Entered line :: rest) self
             = Returned d self' out rest
          /\ step_mode self' = false).
Proof.
  split.
  - intros script d self' out rest. apply returned_with_step_mode_reset.
  - intros line args rest C Hs self1.
    destruct (trace_function_returns_after_step frame line args rest self C Hs)
      as (T & R).
    do 3 eexists. split; [exact T | split; [exact R | reflexivity]].
Qed.

(** The decision returned tells whether the debugger is continuing. *)
Lemma decision_iff_continue_mode frame event script self d self' out rest :
  trace_function getlines frame event script self
  = Returned d self' out rest ->
  (d = Some self_trace_function <-> continue_mode self' = false)
  /\ (d = None <-> continue_mode self' = true).
Proof.
  assert (D : forall s, (decision s = Some self_trace_function
                         <-> continue_mode s = false)
                        /\ (decision s = None <-> continue_mode s = true)).
  { intros s. unfold decision. destruct (continue_mode s); simpl;
      repeat split; intros; try reflexivity; discriminate. }
  destruct (String.eqb_spec event "line") as [-> | N].
  - destruct (continue_mode self) eqn:C.
    + rewrite (trace_line_continuing _ _ _ C). intros H. inversion H; subst.
      cbn [set_step_mode set_current_frame continue_mode]. rewrite C.
      repeat split; intros; try reflexivity; discriminate.
    + rewrite (trace_line_prompting _ _ _ C).
      destruct (_prompt_command getlines script
                  (set_current_frame (Some (getframeinfo frame)) self));
        cbn [after_output]; intros H; inversion H; subst.
      exact (D self0).
  - rewrite (trace_other_event _ _ _ _ N). intros H. inversion H; subst.
    exact (D self').
Qed.

(** While continuing, every event of a session passes through: no
    output, nothing read, the decision is [None], and the debugger is
    still continuing afterwards. *)
Lemma continuing_session events script self :
  continue_mode self = true ->
  exists self',
    run_events (trace_function getlines) events script self
    = Returned (repeat None (List.length events)) self' [] script
    /\ continue_mode self' = true.
Proof.
  revert self. induction events as [| [frame event] events IH]; intros self C.
  - exists self. split; [reflexivity | exact C].
  - cbn [run_events].
    assert (exists self1,
               trace_function getlines frame event script self
               = Returned None self1 [] script
               /\ continue_mode self1 = true) as (self1 & E & C1).
    { destruct (String.eqb_spec event "line") as [-> | N].
      - eexists. split; [apply trace_line_continuing; exact C | exact C].
      - exists self. split; [| exact C].
        rewrite (trace_other_event _ _ _ _ N). unfold decision.
        rewrite C. reflexivity. }
    rewrite E. destruct (IH self1 C1) as (self2 & E2 & C2). rewrite E2.
    exists self2. split; [reflexivity | exact C2].
Qed.

(** C6. Continue-mode is entered by [c] and never left: on the line
    event where the operator enters [c] the callback returns [None]
    with [continue_mode] set; from then on every event of the session is
    handled with no output and no read of the operator's input, the
    callback returns [None], and [continue_mode] stays true. The
    callback returns itself exactly when [continue_mode] is false. *)
Theorem continue_is_one_way frame line args rest self events :
  continue_mode self = false ->
  split_maxsplit_1 line = "c" :: args ->
  exists self1,
    trace_function getlines frame "line" (Entered line :: rest) self
    = Returned None self1
        (shown_line getlines (getframeinfo frame) ++ [Prompt prompt_text])%list rest
    /\ continue_mode self1 = true
    /\ (exists self2,
          run_events (trace_function getlines) events rest self1
          = Returned (repeat None (List.length events)) self2 [] rest
          /\ continue_mode self2 = true)
    /\ (forall frame' event script s d s' out rest',
          trace_function getlines frame' event script s
          = Returned d s' out rest' ->
          (d = Some self_trace_function <-> continue_mode s' = false)
          /\ (d = None <-> continue_mode s' = true)).
Proof.
  intros C Hs.
  set (self0 := set_current_frame (Some (getframeinfo frame)) self).
  exists (set_step_mode false (set_continue_mode true self0)).
  split; [| split; [reflexivity | split]].
  - rewrite (trace_line_prompting _ _ _ C). fold self0.
    rewrite prompt_command_turn.
    rewrite (turn_of_handler getlines line "c" args _continue self0 Hs eq_refl).
    reflexivity.
  - apply continuing_session. reflexivity.
  - intros frame' event script s d s' out rest'.
    apply decision_iff_continue_mode.
Qed.

(** C7 (amended). For an event that is not a line event the callback
    leaves the debugger object (run-mode flags and snapshot) as it is,
    prints nothing and reads nothing; it returns itself when
    [continue_mode] is false and [None] when [continue_mode] is true. *)
Theorem other_events_pass_through frame event script self :
  event <> "line" ->
  trace_function getlines frame event script self
  = Returned
      (if continue_mode self then None else Some self_trace_function)
      self [] script.
Proof.
  intros N. rewrite (trace_other_event _ _ _ _ N). unfold decision.
  destruct (continue_mode self); reflexivity.
Qed.
End TraceCallback.

Lemma step_mode_reset_on_return_witness :
  trace_function demo_getlines demo_frame "line"
    [Entered "v"; Entered "n"; Entered "h"] __init__
  = Returned (Some self_trace_function) demo_at_line_3
      [ Print (nl ++ "At demo.py:3"); Print "--> y = x + n";
        Prompt prompt_text;
        Print "Error: 'Traceback' object has no attribute 'frame'";
        Prompt prompt_text ]
      [Entered "h"]
  /\ step_mode demo_at_line_3 = false
  /\ exists d self' out,
       prompt_turn demo_getlines (Entered "n") demo_at_line_3
       = (Ok Break, set_step_mode true demo_at_line_3, [])
       /\ trace_function demo_getlines demo_frame "line"
            [Entered "n"; Entered "h"] __init__
          = Returned d self' out [Entered "h"]
       /\ step_mode self' = false.
Proof.
  destruct (step_mode_reset_on_return demo_getlines demo_frame __init__)
    as (H1 & H2).
  assert (R : trace_function demo_getlines demo_frame "line"
                [Entered "v"; Entered "n"; Entered "h"] __init__
              = Returned (Some self_trace_function) demo_at_line_3
                  [ Print (nl ++ "At demo.py:3"); Print "--> y = x + n";
                    Prompt prompt_text;
                    Print "Error: 'Traceback' object has no attribute 'frame'";
                    Prompt prompt_text ]
                  [Entered "h"]) by reflexivity.
  split; [exact R | split].
  - exact (H1 _ _ _ _ _ R).
  - exact (H2 "n" [] [Entered "h"] eq_refl eq_refl).
Defined.

Lemma continue_is_one_way_witness :
  exists self1,
    trace_function demo_getlines demo_frame "line"
      [Entered "c"; Entered "p x"] __init__
    = Returned None self1
        (shown_line demo_getlines (getframeinfo demo_frame)
         ++ [Prompt prompt_text])%list [Entered "p x"]
    /\ continue_mode self1 = true
    /\ (exists self2,
          run_events (trace_function demo_getlines)
            [(demo_frame, "line"); (demo_frame, "call"); (demo_frame, "line")]
            [Entered "p x"] self1
          = Returned [None; None; None] self2 [] [Entered "p x"]
          /\ continue_mode self2 = true)
    /\ (forall frame' event script s d s' out rest',
          trace_function demo_getlines frame' event script s
          = Returned d s' out rest' ->
          (d = Some self_trace_function <-> continue_mode s' = false)
          /\ (d = None <-> continue_mode s' = true)).
Proof.
  apply (continue_is_one_way demo_getlines demo_frame "c" [] [Entered "p x"]
           __init__
           [(demo_frame, "line"); (demo_frame, "call"); (demo_frame, "line")]);
    reflexivity.
Defined.

(** C7 as stated fails: after [c], a call event is answered with [None],
    not with the callback itself. *)
Lemma call_event_while_continuing_detaches :
  run_events (trace_function demo_getlines)
    [(demo_frame, "line"); (demo_frame, "call")] [Entered "c"] __init__
  = Returned [None; None]
      {| step_mode := false; continue_mode := true;
         current_frame := Some (Traceback "demo.py" 3) |}
      [ Print (nl ++ "At demo.py:3"); Print "--> y = x + n";
        Prompt prompt_text ] []
  /\ trace_function demo_getlines demo_frame "call" []
       {| step_mode := false; continue_mode := true;
          current_frame := Some (Traceback "demo.py" 3) |}
     <> Returned (Some self_trace_function)
          {| step_mode := false; continue_mode := true;
             current_frame := Some (Traceback "demo.py" 3) |} [] [].
Proof.
  split; [reflexivity | discriminate].
Qed.

Lemma other_events_pass_through_witness :
  "call" <> "line"
  /\ trace_function demo_getlines demo_frame "call" [Entered "n"] demo_at_line_3
     = Returned (Some self_trace_function) demo_at_line_3 [] [Entered "n"].
Proof.
  split; [discriminate |].
  apply (other_events_pass_through demo_getlines demo_frame "call").
  discriminate.
Defined.

(** ** Failure containment and quitting *)

Section Containment.
Variable getlines : string -> list string.

Lemma turn_interrupt self :
  prompt_turn getlines Interrupt self
  = (Ok Continue, self, [Print (nl ++ "Use 'q' to quit")]).
Proof. reflexivity. Qed.

Lemma turn_end_of_input self :
  prompt_turn getlines EndOfInput self
  = (Ok Continue, self, [Print "Error: EOF when reading a line"]).
Proof. reflexivity. Qed.

(** The [try] statement of the loop: an interrupt and an error of the
    [Exception] class end the turn with a printed line and [Continue]. *)
Lemma turn_catches ev self :
  prompt_turn getlines ev self =
  match prompt_try_body getlines ev self with
  | (Raise KeyboardInterrupt, self1, o1) =>
      (Ok Continue, self1, (o1 ++ [Print (nl ++ "Use 'q' to quit")])%list)
  | (Raise (Exception _ msg), self1, o1) =>
      (Ok Continue, self1, (o1 ++ [Print ("Error: " ++ msg)])%list)
  | other => other
  end.
Proof.
  unfold prompt_turn, Py.try_except_KeyboardInterrupt_Exception.
  destruct (prompt_try_body getlines ev self)
    as [[[c | [| code | cls msg]] self1] o1]; reflexivity.
Qed.

(** The only exception that leaves a turn is the [SystemExit(0)] of
    [_quit]. *)
Lemma turn_raises_only_exit ev self e self1 o1 :
  prompt_turn getlines ev self = (Raise e, self1, o1) ->
  e = SystemExit 0.
Proof.
  destruct ev as [line | |]; [| discriminate | discriminate].
  destruct (split_maxsplit_1 line) as [| command args] eqn:Hs.
  - unfold prompt_turn, Py.try_except_KeyboardInterrupt_Exception,
      prompt_try_body.
    rewrite bind_run. cbn [input Py.ret]. rewrite Hs.
    destruct (str_is_empty line); discriminate.
  - destruct (dict_lookup (commands getlines) command) as [handler |] eqn:Hl.
    + rewrite (turn_of_handler getlines _ _ _ _ self Hs Hl).
      destruct (handler_run getlines command handler (first_arg args) self Hl)
        as (r & s & o & E & _ & [C | [_ ->]]); rewrite E.
      * destruct r as [[] | [| code | cls msg]];
          try contradiction; discriminate.
      * intros H. inversion H. reflexivity.
    + unfold prompt_turn, Py.try_except_KeyboardInterrupt_Exception,
        prompt_try_body.
      rewrite bind_run. cbn [input Py.ret].
      rewrite (entered_not_empty _ _ _ Hs), Hs, Hl. discriminate.
Qed.

Lemma after_output_propagated {S A} o (oc : outcome S A) e self out rest :
  after_output o oc = Propagated e self out rest ->
  exists out', oc = Propagated e self out' rest.
Proof.
  destruct oc; simpl; intros H; inversion H; subst.
  eexists. reflexivity.
Qed.

Lemma loop_raises_only_exit script : forall self e self1 out rest,
  _prompt_command getlines script self = Propagated e self1 out rest ->
  e = SystemExit 0.
Proof.
  induction script as [| ev script IH]; intros self e self1 out rest H.
  - discriminate H.
  - rewrite prompt_command_turn in H.
    destruct (prompt_turn getlines ev self) as [[[[|] | e'] s] o] eqn:T.
    + discriminate H.
    + apply after_output_propagated in H. destruct H as (out' & H).
      exact (IH _ _ _ _ _ H).
    + inversion H; subst. exact (turn_raises_only_exit _ _ _ _ _ T).
Qed.

(** C8. Nothing but the exit of [q] leaves the prompt loop. An interrupt
    at the prompt prints the hint to use [q] and the loop prompts again;
    an interrupt or an error of the [Exception] class raised anywhere in
    the turn (reading the line, splitting it, running the handler) is
    caught: the hint, or [Error: ] with the message, is printed and the
    loop prompts again. An exception that leaves [_prompt_command] is
    [SystemExit(0)]. *)
Theorem prompt_loop_contains_failures :
  (forall rest self,
     _prompt_command getlines (Interrupt :: rest) self
     = after_output
         [Prompt prompt_text; Print (nl ++ "Use 'q' to quit")]
         (_prompt_command getlines rest self))
  /\ (forall ev self self1 o1 rest,
        prompt_try_body getlines ev self = (Raise KeyboardInterrupt, self1, o1) ->
        _prompt_command getlines (ev :: rest) self
        = after_output
            (Prompt prompt_text :: o1 ++ [Print (nl ++ "Use 'q' to quit")])%list
            (_prompt_command getlines rest self1))
  /\ (forall ev self cls msg self1 o1 rest,
        prompt_try_body getlines ev self = (Raise (Exception cls msg), self1, o1) ->
        _prompt_command getlines (ev :: rest) self
        = after_output
            (Prompt prompt_text :: o1 ++ [Print ("Error: " ++ msg)])%list
            (_prompt_command getlines rest self1))
  /\ (forall script self e self1 out rest,
        _prompt_command getlines script self = Propagated e self1 out rest ->
        e = SystemExit 0).
Proof.
  split; [| split; [| split]].
  - intros rest self. rewrite prompt_command_turn, turn_interrupt. reflexivity.
  - intros ev self self1 o1 rest E.
    rewrite prompt_command_turn, turn_catches, E. reflexivity.
  - intros ev self cls msg self1 o1 rest E.
    rewrite prompt_command_turn, turn_catches, E. reflexivity.
  - intros script. apply loop_raises_only_exit.
Qed.

(** C9. The quit command raises [SystemExit(0)]; neither handler of the
    loop's [try] catches it, so it leaves the turn, the loop and the
    trace callback, with nothing printed after the prompt and nothing
    more read: the loop is not returned to. *)
Theorem quit_exits_with_code_0 frame line args rest self :
  split_maxsplit_1 line = "q" :: args ->
  prompt_turn getlines (Entered line) self = (Raise (SystemExit 0), self, [])
  /\ _prompt_command getlines (Entered line :: rest) self
     = Propagated (SystemExit 0) self [Prompt prompt_text] rest
  /\ (continue_mode self = false ->
      trace_function getlines frame "line" (Entered line :: rest) self
      = Propagated (SystemExit 0)
          (set_current_frame (Some (getframeinfo frame)) self)
          (shown_line getlines (getframeinfo frame) ++ [Prompt prompt_text])%list
          rest).
Proof.
  intros Hs.
  assert (T : forall s, prompt_turn getlines (Entered line) s
                        = (Raise (SystemExit 0), s, [])).
  { intros s.
    rewrite (turn_of_handler getlines line "q" args _quit s Hs eq_refl).
    reflexivity. }
  split; [apply T | split].
  - rewrite prompt_command_turn, T. reflexivity.
  - intros C. rewrite (trace_line_prompting _ _ _ _ C).
    rewrite prompt_command_turn, T. reflexivity.
Qed.
End Containment.

Lemma prompt_loop_contains_failures_witness :
  prompt_try_body demo_getlines (Entered "l") demo_at_line_3
  = (Raise (AttributeError "Traceback" "frame"), demo_at_line_3, [])
  /\ _prompt_command demo_getlines [Entered "l"; Entered "   "; EndOfInput]
       demo_at_line_3
     = AwaitingInput demo_at_line_3
         [ Prompt prompt_text;
           Print "Error: 'Traceback' object has no attribute 'frame'";
           Prompt prompt_text;
           Print "Error: not enough values to unpack (expected at least 1, got 0)";
           Prompt prompt_text;
           Print "Error: EOF when reading a line";
           Prompt prompt_text ].
Proof.
  split; [reflexivity |].
  destruct (prompt_loop_contains_failures demo_getlines) as (_ & _ & H & _).
  rewrite (H (Entered "l") demo_at_line_3 "AttributeError"
             "'Traceback' object has no attribute 'frame'"
             demo_at_line_3 [] [Entered "   "; EndOfInput] eq_refl).
  reflexivity.
Defined.

Lemma quit_exits_with_code_0_witness :
  split_maxsplit_1 "q" = ["q"]
  /\ prompt_turn demo_getlines (Entered "q") __init__
     = (Raise (SystemExit 0), __init__, [])
  /\ _prompt_command demo_getlines [Entered "q"; Entered "n"] __init__
     = Propagated (SystemExit 0) __init__ [Prompt prompt_text] [Entered "n"]
  /\ (continue_mode __init__ = false ->
      trace_function demo_getlines demo_frame "line"
        [Entered "q"; Entered "n"] __init__
      = Propagated (SystemExit 0) demo_at_line_3
          (shown_line demo_getlines (getframeinfo demo_frame)
           ++ [Prompt prompt_text])%list
          [Entered "n"]).
Proof.
  split; [reflexivity |].
  apply (quit_exits_with_code_0 demo_getlines demo_frame "q" [] [Entered "n"]
           __init__).
  reflexivity.
Defined.

(** ** Printing a variable and listing the source *)

Section Inspection.
Variable getlines : string -> list string.

(** [f_locals] comes first, then [f_globals], then the sentinel. *)
Lemma lookup_variable_spec frame name :
  lookup_variable frame name =
  match dict_lookup (f_locals frame) name with
  | Some v => v
  | None =>
      match dict_lookup (f_globals frame) name with
      | Some v => v
      | None => PyStr "<not found>"
      end
  end.
Proof. reflexivity. Qed.

(** On a snapshot that has the attribute [frame], [_print_variable]
    prints the name and the value looked up. *)
Lemma print_variable_on_FrameInfo arg self frame f l text :
  str_is_empty arg = false ->
  current_frame self = Some (FrameInfo frame f l) ->
  format_value (lookup_variable frame arg) = Ok text ->
  _print_variable arg self = (Ok tt, self, [Print (arg ++ " = " ++ text)]).
Proof.
  intros Ha Hc Hf. unfold _print_variable, Py.try_except_Exception.
  rewrite Ha, bind_run. cbn [Py.get]. rewrite bind_run, Hc.
  cbn [attr_frame Py.lift]. rewrite bind_run.
  fold (lookup_variable frame arg). rewrite Hf. reflexivity.
Qed.

(** On the snapshot that [getframeinfo] makes, the attribute is missing;
    the handler's own [except] prints the error. *)
Lemma print_variable_on_Traceback arg self f l :
  str_is_empty arg = false ->
  current_frame self = Some (Traceback f l) ->
  _print_variable arg self
  = (Ok tt, self,
     [Print "Error accessing variable: 'Traceback' object has no attribute 'frame'"]).
Proof.
  intros Ha Hc. unfold _print_variable, Py.try_except_Exception.
  rewrite Ha, bind_run. cbn [Py.get]. rewrite bind_run, Hc. reflexivity.
Qed.

(** C3 (the code at a line event). After a line event the snapshot is the
    [Traceback] of [getframeinfo]; for every frame and every non-empty
    name, bound or not, [_print_variable] prints the attribute error and
    no value, and so does the prompt loop on the line [p name]. *)
Theorem print_variable_after_line_event frame self arg :
  str_is_empty arg = false ->
  let self1 := set_current_frame (Some (getframeinfo frame)) self in
  _print_variable arg self1
  = (Ok tt, self1,
     [Print "Error accessing variable: 'Traceback' object has no attribute 'frame'"]).
Proof.
  intros Ha self1.
  exact (print_variable_on_Traceback arg self1 _ _ Ha eq_refl).
Qed.

Lemma for_each_print {S A} (xs : list A) (text : A -> string) (self : S) :
  Py.for_each xs (fun x => Py.print (text x)) self
  = (Ok tt, self, map (fun x => Print (text x)) xs).
Proof.
  induction xs as [| x xs IH]; [reflexivity |].
  cbn [Py.for_each map]. rewrite bind_run. cbn [Py.print]. rewrite IH.
  reflexivity.
Qed.

(** On a snapshot that has the attribute [frame], [_list_source] prints
    a heading and one line for each number of the window. *)
Lemma list_source_on_FrameInfo arg self frame f l :
  current_frame self = Some (FrameInfo frame f l) ->
  _list_source getlines arg self
  = (Ok tt, self,
     Print (nl ++ "Source code around line " ++ str_int (f_lineno frame) ++ ":")
     :: map (source_line getlines (f_code_co_filename frame) (f_lineno frame))
          (range (Z.max (f_lineno frame - 5) 1) (f_lineno frame + 5 + 1))).
Proof.
  intros Hc. unfold _list_source. rewrite bind_run. cbn [Py.get].
  rewrite Hc. cbn [truthy negb]. rewrite bind_run. cbn [attr_frame Py.lift].
  rewrite bind_run. cbn [Py.print].
  rewrite (for_each_print _
             (fun line_num =>
                (if line_num =? f_lineno frame then "-->" else "   ") ++ " "
                ++ format_4d line_num ++ " "
                ++ rstrip (getline getlines (f_code_co_filename frame) line_num))).
  reflexivity.
Qed.

(** The window: the numbers from [a] to [b - 1], each once, in
    increasing order. *)
Lemma range_spec a b n :
  In n (range a b) <-> a <= n < b.
Proof.
  unfold range. rewrite in_map_iff. split.
  - intros (i & <- & Hi). apply in_seq in Hi. lia.
  - intros H. exists (Z.to_nat (n - a)). split; [lia |].
    apply in_seq. lia.
Qed.

Lemma range_nth a b i :
  (i < Z.to_nat (b - a))%nat ->
  nth i (range a b) 0 = a + Z.of_nat i.
Proof.
  intros H. unfold range.
  rewrite (nth_indep _ 0 (a + Z.of_nat 0))
    by (rewrite length_map, length_seq; exact H).
  etransitivity;
    [exact (map_nth (fun i => a + Z.of_nat i) (seq 0 (Z.to_nat (b - a))) O i) |].
  rewrite seq_nth by exact H. reflexivity.
Qed.

Lemma range_length a b : List.length (range a b) = Z.to_nat (b - a).
Proof. unfold range. rewrite length_map, length_seq. reflexivity. Qed.

(** A line number past the end of the file gives the empty string. *)
Lemma getline_past_end filename n :
  Z.of_nat (List.length (getlines filename)) < n ->
  getline getlines filename n = EmptyString.
Proof.
  intros H. unfold getline.
  destruct (Z.leb_spec n (Z.of_nat (List.length (getlines filename))));
    [lia |].
  rewrite andb_false_r. reflexivity.
Qed.

(** C4 (the code at a line event). After a line event the snapshot is the
    [Traceback] of [getframeinfo]; [_list_source] raises the attribute
    error before it prints anything, and the prompt loop prints it as an
    error: no source line is listed. *)
Theorem list_source_after_line_event frame self arg :
  let self1 := set_current_frame (Some (getframeinfo frame)) self in
  _list_source getlines arg self1
  = (Raise (AttributeError "Traceback" "frame"), self1, [])
  /\ prompt_turn getlines (Entered "l") self1
     = (Ok Continue, self1,
        [Print "Error: 'Traceback' object has no attribute 'frame'"]).
Proof.
  split; reflexivity.
Qed.
End Inspection.

Lemma print_variable_after_line_event_witness :
  dict_lookup (f_locals demo_frame) "x" = Some (PyInt 1)
  /\ _print_variable "x" demo_at_line_3
     = (Ok tt, demo_at_line_3,
        [Print "Error accessing variable: 'Traceback' object has no attribute 'frame'"]).
Proof.
  split; [reflexivity |].
  apply (print_variable_after_line_event demo_frame __init__ "x").
  reflexivity.
Defined.

(** The two runs at line 3 of [demo.py], through the trace callback. *)
Example print_variable_run :
  trace_function demo_getlines demo_frame "line"
    [Entered "p x"; Entered "n"] __init__
  = Returned (Some self_trace_function) demo_at_line_3
      [ Print (nl ++ "At demo.py:3"); Print "--> y = x + n";
        Prompt prompt_text;
        Print "Error accessing variable: 'Traceback' object has no attribute 'frame'";
        Prompt prompt_text ] [].
Proof. reflexivity. Qed.

Example list_source_run :
  trace_function demo_getlines demo_frame "line"
    [Entered "l"; Entered "n"] __init__
  = Returned (Some self_trace_function) demo_at_line_3
      [ Print (nl ++ "At demo.py:3"); Print "--> y = x + n";
        Prompt prompt_text;
        Print "Error: 'Traceback' object has no attribute 'frame'";
        Prompt prompt_text ] [].
Proof. reflexivity. Qed.

(** What the two handlers do on a [FrameInfo] of the same frame. *)
Example print_variable_on_FrameInfo_run :
  _print_variable "x" demo_with_FrameInfo
  = (Ok tt, demo_with_FrameInfo, [Print "x = 1"])
  /\ _print_variable "g" demo_with_FrameInfo
     = (Ok tt, demo_with_FrameInfo, [Print "g = only global"])
  /\ _print_variable "z" demo_with_FrameInfo
     = (Ok tt, demo_with_FrameInfo, [Print "z = <not found>"]).
Proof. repeat split. Qed.

Example list_source_on_FrameInfo_run :
  _list_source demo_getlines "" demo_with_FrameInfo
  = (Ok tt, demo_with_FrameInfo,
     [ Print (nl ++ "Source code around line 3:");
       Print "       1 def f(n):";
       Print "       2     x = 1";
       Print "-->    3     y = x + n";
       Print "       4     return y";
       Print "       5 ";
       Print "       6 ";
       Print "       7 ";
       Print "       8 " ]).
Proof. reflexivity. Qed.

(** ** [step_mode] is never read *)

Section Simulation.
Variable getlines : string -> list string.

Lemma sim_ret {A} (a : A) : simulates (Py.ret a) (Py.ret a).
Proof. intros self. reflexivity. Qed.

Lemma sim_print text : simulates (Py.print text) (Py.print text).
Proof. intros self. reflexivity. Qed.

Lemma sim_raise {A} e : simulates (A := A) (Py.raise e) (Py.raise e).
Proof. intros self. reflexivity. Qed.

Lemma sim_lift {A} (r : result A) : simulates (Py.lift r) (Py.lift r).
Proof. intros self. reflexivity. Qed.

Lemma sim_bind {A B} m m' (f : A -> Py.M SimpleDebugger B) f' :
  simulates m m' -> (forall a, simulates (f a) (f' a)) ->
  simulates (Py.bind m f) (Py.bind m' f').
Proof.
  intros Hm Hf self. rewrite !bind_run, Hm.
  destruct (m self) as [[[a | e] s1] o1]; cbn [map_run]; [| reflexivity].
  rewrite Hf. destruct (f a s1) as [[r2 s2] o2]. reflexivity.
Qed.

(** Both read [self]; what follows may depend on it through [erase]
    only. *)
Lemma sim_get_bind {A} (f : SimpleDebugger -> Py.M SimpleDebugger A) f' :
  (forall s, simulates (f s) (f' (erase s))) ->
  simulates (Py.bind Py.get f) (Py.bind Py.get f').
Proof.
  intros H self. rewrite !bind_run. cbn [Py.get].
  rewrite (H self self). destruct (f self self) as [[r s] o]. reflexivity.
Qed.

Lemma sim_for_each {A} (xs : list A) body body' :
  (forall x, simulates (body x) (body' x)) ->
  simulates (Py.for_each xs body) (Py.for_each xs body').
Proof.
  intros H. induction xs as [| x xs IH]; cbn [Py.for_each].
  - apply sim_ret.
  - apply sim_bind; [apply H | intros _; exact IH].
Qed.

Lemma sim_try_except_Exception {A} m m' (h : string -> Py.M _ A) h' :
  simulates m m' -> (forall e, simulates (h e) (h' e)) ->
  simulates (Py.try_except_Exception m h) (Py.try_except_Exception m' h').
Proof.
  intros Hm Hh self. unfold Py.try_except_Exception. rewrite Hm.
  destruct (m self) as [[[a | [| code | cls msg]] s1] o1]; cbn [map_run];
    try reflexivity.
  rewrite Hh. destruct (h msg s1) as [[r2 s2] o2]. reflexivity.
Qed.

Lemma sim_try_except_KeyboardInterrupt_Exception {A}
    m m' (k : Py.M _ A) k' h h' :
  simulates m m' -> simulates k k' -> (forall e, simulates (h e) (h' e)) ->
  simulates (Py.try_except_KeyboardInterrupt_Exception m k h)
            (Py.try_except_KeyboardInterrupt_Exception m' k' h').
Proof.
  intros Hm Hk Hh self. unfold Py.try_except_KeyboardInterrupt_Exception.
  rewrite Hm.
  destruct (m self) as [[[a | [| code | cls msg]] s1] o1]; cbn [map_run];
    try reflexivity.
  - rewrite Hk. destruct (k s1) as [[r2 s2] o2]. reflexivity.
  - rewrite Hh. destruct (h msg s1) as [[r2 s2] o2]. reflexivity.
Qed.

Lemma sim_help arg : simulates (_help arg) (Flagless._help arg).
Proof. intros self. reflexivity. Qed.

(** The one place where the two programs differ: [_step] writes the
    flag, which [erase] forgets. *)
Lemma sim_step arg : simulates (_step arg) (Flagless._step arg).
Proof. intros self. reflexivity. Qed.

Lemma sim_continue arg : simulates (_continue arg) (Flagless._continue arg).
Proof. intros self. reflexivity. Qed.

Lemma sim_quit arg : simulates (_quit arg) (Flagless._quit arg).
Proof. intros self. reflexivity. Qed.

Lemma sim_print_variable arg :
  simulates (_print_variable arg) (Flagless._print_variable arg).
Proof.
  unfold _print_variable, Flagless._print_variable.
  destruct (str_is_empty arg); [apply sim_print |].
  apply sim_try_except_Exception; [| intros e; apply sim_print].
  apply sim_get_bind. intros s. cbn [erase Flagless.current_frame].
  apply sim_bind; [apply sim_lift | intros frame].
  apply sim_bind; [apply sim_lift | intros text; apply sim_print].
Qed.

Lemma sim_list_variables arg :
  simulates (_list_variables arg) (Flagless._list_variables arg).
Proof.
  unfold _list_variables, Flagless._list_variables.
  apply sim_get_bind. intros s. cbn [erase Flagless.current_frame].
  destruct (truthy (current_frame s)); [| apply sim_ret].
  apply sim_bind; [apply sim_lift | intros frame].
  apply sim_for_each. intros [name value].
  apply sim_bind; [apply sim_lift | intros text; apply sim_print].
Qed.

Lemma sim_list_source arg :
  simulates (_list_source getlines arg) (Flagless._list_source getlines arg).
Proof.
  unfold _list_source, Flagless._list_source.
  apply sim_get_bind. intros s. cbn [erase Flagless.current_frame].
  destruct (negb (truthy (current_frame s))); [apply sim_ret |].
  apply sim_bind; [apply sim_lift | intros frame].
  apply sim_bind; [apply sim_print | intros _].
  apply sim_for_each. intros line_num. apply sim_print.
Qed.

Lemma sim_show_current_line :
  simulates (_show_current_line getlines)
            (Flagless._show_current_line getlines).
Proof.
  unfold _show_current_line, Flagless._show_current_line.
  apply sim_get_bind. intros s. cbn [erase Flagless.current_frame].
  destruct (current_frame s) as [fi |]; [| apply sim_ret].
  apply sim_bind; [apply sim_print | intros _; apply sim_print].
Qed.

(** The two command tables have the same keys, and under each key
    handlers that do the same. *)
Lemma sim_commands command :
  match dict_lookup (commands getlines) command,
        dict_lookup (Flagless.commands getlines) command with
  | Some handler, Some handler' =>
      forall arg, simulates (handler arg) (handler' arg)
  | None, None => True
  | _, _ => False
  end.
Proof.
  unfold commands, Flagless.commands, dict_lookup.
  repeat match goal with
         | |- context [String.eqb command ?k] =>
             destruct (String.eqb_spec command k) as [-> | _]
         end;
    try exact I; intros arg.
  - apply sim_help.
  - apply sim_step.
  - apply sim_print_variable.
  - apply sim_list_source.
  - apply sim_continue.
  - apply sim_list_variables.
  - apply sim_quit.
Qed.

Lemma sim_prompt_try_body ev :
  simulates (prompt_try_body getlines ev) (Flagless.prompt_try_body getlines ev).
Proof.
  unfold prompt_try_body, Flagless.prompt_try_body.
  apply sim_bind.
  - destruct ev; [apply sim_ret | apply sim_raise | apply sim_raise].
  - intros cmd. destruct (str_is_empty cmd); [apply sim_ret |].
    destruct (split_maxsplit_1 cmd) as [| command args]; [apply sim_raise |].
    pose proof (sim_commands command) as H.
    destruct (dict_lookup (commands getlines) command) as [handler |],
             (dict_lookup (Flagless.commands getlines) command) as [handler' |];
      try contradiction.
    + apply sim_bind; [apply H | intros _].
      destruct (resumes command); apply sim_ret.
    + apply sim_bind; [apply sim_print | intros _].
      apply sim_bind; [apply sim_help | intros _; apply sim_ret].
Qed.

Lemma sim_prompt_turn ev :
  simulates (prompt_turn getlines ev) (Flagless.prompt_turn getlines ev).
Proof.
  unfold prompt_turn, Flagless.prompt_turn.
  apply sim_try_except_KeyboardInterrupt_Exception.
  - apply sim_prompt_try_body.
  - apply sim_bind; [apply sim_print | intros _; apply sim_ret].
  - intros e. apply sim_bind; [apply sim_print | intros _; apply sim_ret].
Qed.

Lemma map_outcome_after_output {S T A} (f : S -> T) o (oc : outcome S A) :
  map_outcome f (after_output o oc) = after_output o (map_outcome f oc).
Proof. destruct oc; reflexivity. Qed.

Lemma sim_prompt_command script : forall self,
  map_outcome erase (_prompt_command getlines script self)
  = Flagless._prompt_command getlines script (erase self).
Proof.
  induction script as [| ev rest IH]; intros self; [reflexivity |].
  cbn [_prompt_command Flagless._prompt_command].
  rewrite (sim_prompt_turn ev self).
  destruct (prompt_turn getlines ev self) as [[[[|] | e] s1] o1];
    cbn [map_run]; rewrite map_outcome_after_output; try reflexivity.
  rewrite IH. reflexivity.
Qed.

Lemma sim_trace_function frame event script self :
  map_outcome erase (trace_function getlines frame event script self)
  = Flagless.trace_function getlines frame event script (erase self).
Proof.
  unfold trace_function, Flagless.trace_function.
  destruct (String.eqb event "line"); [| reflexivity].
  destruct self as [sm [|] cf]; [reflexivity |].
  set (self1 := set_current_frame (Some (getframeinfo frame))
                  {| step_mode := sm; continue_mode := false;
                     current_frame := cf |}).
  change (Flagless.set_current_frame (Some (getframeinfo frame))
            (erase {| step_mode := sm; continue_mode := false;
                      current_frame := cf |}))
    with (erase self1).
  change (Flagless.continue_mode (erase self1)) with false.
  change (continue_mode self1) with false.
  cbn [negb]. rewrite (sim_show_current_line self1).
  destruct (_show_current_line getlines self1) as [[[[] | e] s2] o2];
    cbn [map_run]; rewrite map_outcome_after_output; [| reflexivity].
  rewrite <- sim_prompt_command.
  destruct (_prompt_command getlines script s2); reflexivity.
Qed.

Lemma sim_run_events events : forall script self,
  map_outcome erase (run_events (trace_function getlines) events script self)
  = run_events (Flagless.trace_function getlines) events script (erase self).
Proof.
  induction events as [| [frame event] events IH]; intros script self;
    [reflexivity |].
  cbn [run_events]. rewrite <- sim_trace_function.
  destruct (trace_function getlines frame event script self)
    as [d s1 o1 rest | e s1 o1 rest | s1 o1]; try reflexivity.
  cbn [map_outcome]. rewrite <- IH, map_outcome_after_output.
  destruct (run_events (trace_function getlines) events rest s1);
    reflexivity.
Qed.

(** C10. [step_mode] is written ([_step] sets it, the callback clears
    it) and never read: the debugger and the debugger without the flag
    print the same, read the same part of the operator's input and
    return the same decisions, for one event and for a whole session,
    and the value of the flag at the start makes no difference.
    Stepping works without the flag: [n] ends the prompt loop and leaves
    [continue_mode] as it is. *)
Theorem step_mode_is_write_only :
  (forall frame event script self,
     map_outcome erase (trace_function getlines frame event script self)
     = Flagless.trace_function getlines frame event script (erase self))
  /\ (forall events script self,
        map_outcome erase
          (run_events (trace_function getlines) events script self)
        = run_events (Flagless.trace_function getlines) events script
            (erase self))
  /\ (forall b frame event script self,
        map_outcome erase
          (trace_function getlines frame event script (set_step_mode b self))
        = map_outcome erase
            (trace_function getlines frame event script self))
  /\ (forall line args self,
        split_maxsplit_1 line = "n" :: args ->
        Flagless.prompt_turn getlines (Entered line) (erase self)
        = (Ok Break, erase self, [])
        /\ exists self1,
             prompt_turn getlines (Entered line) self = (Ok Break, self1, [])
             /\ continue_mode self1 = continue_mode self).
Proof.
  split; [| split; [| split]].
  - apply sim_trace_function.
  - intros events. apply sim_run_events.
  - intros b frame event script self. rewrite !sim_trace_function.
    reflexivity.
  - intros line args self Hs.
    assert (T : prompt_turn getlines (Entered line) self
                = (Ok Break, set_step_mode true self, [])).
    { rewrite (turn_of_handler getlines line "n" args _step self Hs eq_refl).
      reflexivity. }
    split.
    + rewrite sim_prompt_turn, T. reflexivity.
    + exists (set_step_mode true self). split; [exact T | reflexivity].
Qed.
End Simulation.

Lemma step_mode_is_write_only_witness :
  split_maxsplit_1 "n" = ["n"]
  /\ Flagless.prompt_turn demo_getlines (Entered "n") (erase demo_at_line_3)
     = (Ok Break, erase demo_at_line_3, [])
  /\ map_outcome erase
       (run_events (trace_function demo_getlines)
          [(demo_frame, "line"); (demo_frame, "line")]
          [Entered "n"; Entered "h"; Entered "c"] __init__)
     = run_events (Flagless.trace_function demo_getlines)
         [(demo_frame, "line"); (demo_frame, "line")]
         [Entered "n"; Entered "h"; Entered "c"] (erase __init__).
Proof.
  destruct (step_mode_is_write_only demo_getlines) as (_ & H2 & _ & H4).
  split; [reflexivity | split].
  - apply (H4 "n" [] demo_at_line_3 eq_refl).
  - apply H2.
Defined.

(** ** More on one turn of the prompt loop *)

Section TurnFacts.
Variable getlines : string -> list string.

(** The table has the seven keys of [command_keys] and no other. *)
Lemma commands_keys command :
  dict_lookup (commands getlines) command = None <-> ~ In command command_keys.
Proof.
  unfold commands, dict_lookup, command_keys. split.
  - repeat match goal with
           | |- context [String.eqb command ?k] =>
               destruct (String.eqb_spec command k) as [-> | ?]
           end; try discriminate.
    intros _ H. simpl in H. intuition congruence.
  - intros H.
    repeat match goal with
           | |- context [String.eqb command ?k] =>
               destruct (String.eqb_spec command k) as [E | ?];
                 [exfalso; apply H; rewrite E; simpl; tauto |]
           end.
    reflexivity.
Qed.

Lemma try_body_unknown line command args self :
  split_maxsplit_1 line = command :: args ->
  dict_lookup (commands getlines) command = None ->
  prompt_try_body getlines (Entered line) self
  = (Ok Continue, self, Print ("Unknown command: " ++ command) :: help_text).
Proof.
  intros Hs Hl. unfold prompt_try_body. rewrite bind_run.
  cbn [input Py.ret]. rewrite (entered_not_empty _ _ _ Hs), Hs, Hl.
  reflexivity.
Qed.

(** X1. A word that is not a key of the table is reported as unknown,
    followed by the help text; the debugger object is as before and the
    loop goes on. *)
Theorem unknown_command_reported line command args rest self :
  split_maxsplit_1 line = command :: args ->
  ~ In command command_keys ->
  prompt_turn getlines (Entered line) self
  = (Ok Continue, self, Print ("Unknown command: " ++ command) :: help_text)
  /\ _prompt_command getlines (Entered line :: rest) self
     = after_output
         (Prompt prompt_text :: Print ("Unknown command: " ++ command)
          :: help_text)
         (_prompt_command getlines rest self).
Proof.
  intros Hs Hk. apply commands_keys in Hk.
  assert (T : prompt_turn getlines (Entered line) self
              = (Ok Continue, self,
                 Print ("Unknown command: " ++ command) :: help_text)).
  { rewrite turn_catches, (try_body_unknown _ _ _ _ Hs Hk). reflexivity. }
  split; [exact T |]. rewrite prompt_command_turn, T. reflexivity.
Qed.




(** X3. The print command without an argument prints the usage line; the
    debugger object is as before and the loop goes on. *)
Theorem print_without_argument_prints_usage line rest self :
  split_maxsplit_1 line = ["p"] ->
  prompt_turn getlines (Entered line) self
  = (Ok Continue, self, [Print "Usage: p <variable_name>"])
  /\ _prompt_command getlines (Entered line :: rest) self
     = after_output [Prompt prompt_text; Print "Usage: p <variable_name>"]
         (_prompt_command getlines rest self).
Proof.
  intros Hs.
  assert (T : prompt_turn getlines (Entered line) self
              = (Ok Continue, self, [Print "Usage: p <variable_name>"])).
  { rewrite (turn_of_handler getlines line "p" [] _print_variable self Hs
               eq_refl).
    reflexivity. }
  split; [exact T |]. rewrite prompt_command_turn, T. reflexivity.
Qed.

(** X4. Every command but [p] ignores what follows its word on the line:
    two lines with the same first word, other than [p], do the same. *)
Theorem argument_ignored_unless_print line1 line2 command args1 args2 self :
  split_maxsplit_1 line1 = command :: args1 ->
  split_maxsplit_1 line2 = command :: args2 ->
  command <> "p" ->
  prompt_turn getlines (Entered line1) self
  = prompt_turn getlines (Entered line2) self.
Proof.
  intros H1 H2 Np.
  destruct (dict_lookup (commands getlines) command) as [handler |] eqn:Hl.
  - rewrite (turn_of_handler getlines _ _ _ _ self H1 Hl).
    rewrite (turn_of_handler getlines _ _ _ _ self H2 Hl).
    destruct (commands_cases _ _ _ Hl)
      as [[-> ->] | [[-> ->] | [[-> ->] | [[-> ->] | [[-> ->] | [[-> ->] | [-> ->]]]]]]];
      try reflexivity.
    contradiction Np. reflexivity.
  - rewrite !turn_catches.
    rewrite (try_body_unknown _ _ _ _ H1 Hl), (try_body_unknown _ _ _ _ H2 Hl).
    reflexivity.
Qed.

(** What a turn can do to the debugger object: nothing, or set one of the
    two flags; it ends the loop exactly when it sets one. *)
Lemma turn_effect ev self r self1 o1 :
  prompt_turn getlines ev self = (r, self1, o1) ->
  (self1 = self /\ r <> Ok Break)
  \/ (self1 = set_step_mode true self /\ r = Ok Break)
  \/ (self1 = set_continue_mode true self /\ r = Ok Break).
Proof.
  destruct ev as [line | |].
  - destruct (split_maxsplit_1 line) as [| command args] eqn:Hs.
    + rewrite turn_catches. unfold prompt_try_body. rewrite bind_run.
      cbn [input Py.ret]. rewrite Hs.
      destruct (str_is_empty line); intros H; inversion H; subst;
        left; split; [reflexivity | discriminate | reflexivity | discriminate].
    + destruct (dict_lookup (commands getlines) command) as [handler |] eqn:Hl.
      * rewrite (turn_of_handler getlines _ _ _ _ self Hs Hl).
        destruct (commands_cases _ _ _ Hl)
          as [[-> ->] | [[-> ->] | [[-> ->] | [[-> ->] | [[-> ->] | [[-> ->] | [-> ->]]]]]]].
        -- intros H; inversion H; subst. left. split; [reflexivity | discriminate].
        -- intros H; inversion H; subst. right; left. split; reflexivity.
        -- destruct (print_variable_reports (first_arg args) self)
             as ([] & o & E).
           rewrite E. intros H; inversion H; subst.
           left. split; [reflexivity | discriminate].
        -- destruct (list_source_inspects getlines (first_arg args) self)
             as (r0 & o & E & C).
           rewrite E. destruct r0 as [[] | [| code | cls msg]];
             try contradiction; intros H; inversion H; subst;
             left; (split; [reflexivity | discriminate]).
        -- intros H; inversion H; subst. right; right. split; reflexivity.
        -- destruct (list_variables_inspects (first_arg args) self)
             as (r0 & o & E & C).
           rewrite E. destruct r0 as [[] | [| code | cls msg]];
             try contradiction; intros H; inversion H; subst;
             left; (split; [reflexivity | discriminate]).
        -- intros H; inversion H; subst. left. split; [reflexivity | discriminate].
      * rewrite turn_catches, (try_body_unknown _ _ _ _ Hs Hl).
        intros H; inversion H; subst. left. split; [reflexivity | discriminate].
  - rewrite turn_interrupt. intros H; inversion H; subst.
    left. split; [reflexivity | discriminate].
  - rewrite turn_end_of_input. intros H; inversion H; subst.
    left. split; [reflexivity | discriminate].
Qed.
End TurnFacts.

(** ** More on the whole prompt loop *)

Section LoopFacts.
Variable getlines : string -> list string.

(** A turn on an input that is not [n], [c] or [q] changes nothing and
    goes on. *)
Lemma inert_turn ev self :
  inert ev = true ->
  exists o, prompt_turn getlines ev self = (Ok Continue, self, o).
Proof.
  intros Hi.
  destruct (prompt_turn getlines ev self) as [[r self1] o] eqn:T.
  assert (r = Ok Continue /\ self1 = self) as [-> ->]; [| exists o; reflexivity].
  destruct ev as [line | |];
    [| rewrite turn_interrupt in T; inversion T; split; reflexivity
     | rewrite turn_end_of_input in T; inversion T; split; reflexivity].
  unfold inert, command_word in Hi.
  destruct (split_maxsplit_1 line) as [| command args] eqn:Hs.
  - rewrite turn_catches in T. unfold prompt_try_body in T.
    rewrite bind_run in T. cbn [input Py.ret] in T. rewrite Hs in T.
    destruct (str_is_empty line); inversion T; split; reflexivity.
  - apply negb_true_iff, orb_false_iff in Hi. destruct Hi as [Hi Hq].
    apply orb_false_iff in Hi. destruct Hi as [Hn Hc].
    apply String.eqb_neq in Hn, Hc, Hq.
    destruct (dict_lookup (commands getlines) command) as [handler |] eqn:Hl.
    + rewrite (turn_of_handler getlines _ _ _ _ self Hs Hl) in T.
      assert (R : resumes command = false).
      { unfold resumes. apply orb_false_iff.
        split; apply String.eqb_neq; assumption. }
      rewrite R in T.
      destruct (commands_cases _ _ _ Hl)
        as [[-> ->] | [[-> ->] | [[-> ->] | [[-> ->] | [[-> ->] | [[-> ->] | [-> ->]]]]]]];
        try congruence.
      * inversion T. split; reflexivity.
      * destruct (print_variable_reports (first_arg args) self) as ([] & o' & E).
        rewrite E in T. inversion T. split; reflexivity.
      * destruct (list_source_inspects getlines (first_arg args) self)
          as (r0 & o' & E & C).
        rewrite E in T. destruct r0 as [[] | [| code | cls msg]];
          try contradiction; inversion T; split; reflexivity.
      * destruct (list_variables_inspects (first_arg args) self)
          as (r0 & o' & E & C).
        rewrite E in T. destruct r0 as [[] | [| code | cls msg]];
          try contradiction; inversion T; split; reflexivity.
    + rewrite turn_catches, (try_body_unknown _ _ _ _ _ Hs Hl) in T.
      inversion T. split; reflexivity.
Qed.

Lemma after_output_assoc {S A} o1 o2 (oc : outcome S A) :
  after_output o1 (after_output o2 oc) = after_output (o1 ++ o2)%list oc.
Proof. destruct oc; simpl; rewrite app_assoc; reflexivity. Qed.

(** The loop reads through inputs that are not [n], [c] or [q] and is
    then where it started. *)
Lemma inert_prefix pre : forall script self,
  forallb inert pre = true ->
  exists o,
    _prompt_command getlines (pre ++ script)%list self
    = after_output o (_prompt_command getlines script self).
Proof.
  induction pre as [| ev pre IH]; intros script self H.
  - exists []. cbn [app].
    destruct (_prompt_command getlines script self); reflexivity.
  - cbn [forallb] in H. apply andb_true_iff in H. destruct H as [He Hp].
    destruct (inert_turn ev self He) as (o1 & T).
    destruct (IH script self Hp) as (o2 & E).
    exists (Prompt prompt_text :: o1 ++ o2)%list.
    rewrite <- app_comm_cons, prompt_command_turn, T, E.
    rewrite after_output_assoc, <- app_comm_cons. reflexivity.
Qed.

(** X5. Only [n], [c] and [q] leave the prompt loop, and nothing else
    changes the debugger: on a script without these three commands the
    loop reads every input and is still waiting at the prompt, with the
    debugger object as it was at the start. *)
Theorem inspection_never_resumes script self :
  forallb inert script = true ->
  exists out,
    _prompt_command getlines script self = AwaitingInput self out.
Proof.
  intros H. destruct (inert_prefix script [] self H) as (o & E).
  rewrite app_nil_r in E. rewrite E.
  exists (o ++ [Prompt prompt_text])%list. reflexivity.
Qed.

(** X6. The first of [n], [c] and [q] on the script decides how the loop
    ends, whatever was entered before it: after [n] the loop returns with
    [step_mode] set, after [c] it returns with [continue_mode] set, after
    [q] the exit leaves it; in each case the debugger object is otherwise
    as at the start and the rest of the script is not read. *)
Theorem first_decisive_command pre line command args rest self :
  forallb inert pre = true ->
  split_maxsplit_1 line = command :: args ->
  (command = "n" ->
   exists out,
     _prompt_command getlines (pre ++ Entered line :: rest)%list self
     = Returned tt (set_step_mode true self) out rest)
  /\ (command = "c" ->
      exists out,
        _prompt_command getlines (pre ++ Entered line :: rest)%list self
        = Returned tt (set_continue_mode true self) out rest)
  /\ (command = "q" ->
      exists out,
        _prompt_command getlines (pre ++ Entered line :: rest)%list self
        = Propagated (SystemExit 0) self out rest).
Proof.
  intros Hp Hs.
  destruct (inert_prefix pre (Entered line :: rest) self Hp) as (o & E).
  rewrite E, prompt_command_turn.
  split; [| split]; intros ->.
  - rewrite (turn_of_handler getlines line "n" args _step self Hs eq_refl).
    eexists. reflexivity.
  - rewrite (turn_of_handler getlines line "c" args _continue self Hs eq_refl).
    eexists. reflexivity.
  - rewrite (turn_of_handler getlines line "q" args _quit self Hs eq_refl).
    eexists. reflexivity.
Qed.

Lemma outcome_self_after_output {S A} o (oc : outcome S A) :
  outcome_self (after_output o oc) = outcome_self oc.
Proof. destruct oc; reflexivity. Qed.

(** The loop leaves [current_frame] as it is. *)
Lemma prompt_loop_keeps_frame script : forall self,
  current_frame (outcome_self (_prompt_command getlines script self))
  = current_frame self.
Proof.
  induction script as [| ev script IH]; intros self; [reflexivity |].
  rewrite prompt_command_turn.
  destruct (prompt_turn getlines ev self) as [[r self1] o1] eqn:T.
  assert (F : current_frame self1 = current_frame self).
  { destruct (turn_effect getlines _ _ _ _ _ T)
      as [[-> _] | [[-> _] | [-> _]]]; reflexivity. }
  destruct r as [[|] | e]; [exact F | | exact F].
  rewrite outcome_self_after_output, IH. exact F.
Qed.

(** X7. Whatever the operator enters and however the loop ends, the
    prompt loop leaves [current_frame] as it is and clears neither flag;
    and when it returns, one of the two flags is set. *)
Theorem prompt_loop_invariant script : forall self,
  let self' := outcome_self (_prompt_command getlines script self) in
  current_frame self' = current_frame self
  /\ (step_mode self = true -> step_mode self' = true)
  /\ (continue_mode self = true -> continue_mode self' = true)
  /\ (forall s out rest,
        _prompt_command getlines script self = Returned tt s out rest ->
        step_mode s = true \/ continue_mode s = true).
Proof.
  induction script as [| ev script IH]; intros self self'.
  - subst self'. cbn. repeat split; try tauto. intros s out rest H. discriminate H.
  - subst self'. rewrite prompt_command_turn.
    destruct (prompt_turn getlines ev self) as [[r self1] o1] eqn:T.
    destruct (turn_effect getlines _ _ _ _ _ T)
      as [[-> Nb] | [[-> ->] | [-> ->]]].
    + destruct r as [[|] | e].
      * contradiction Nb. reflexivity.
      * rewrite outcome_self_after_output.
        destruct (IH self) as (Hc & Hs & Hk & Hr).
        split; [exact Hc | split; [exact Hs | split; [exact Hk |]]].
        intros s out rest H.
        destruct (_prompt_command getlines script self) as [[] s0 o0 r0 | |] eqn:E;
          cbn [after_output] in H; inversion H; subst.
        exact (Hr _ _ _ eq_refl).
      * cbn [outcome_self]. repeat split; try tauto.
        intros s out rest H. discriminate H.
    + cbn [outcome_self set_step_mode current_frame step_mode continue_mode].
      repeat split; try tauto.
      intros s out rest H. inversion H; subst. left. reflexivity.
    + cbn [outcome_self set_continue_mode current_frame step_mode continue_mode].
      repeat split; try tauto.
      intros s out rest H. inversion H; subst. right. reflexivity.
Qed.

End LoopFacts.

(** ** Prompts and reads *)

Section PromptCount.
Variable getlines : string -> list string.







Lemma np_put {S} (s : S) : writes_no_prompt (Py.put s).
Proof. intros self. reflexivity. Qed.












End PromptCount.

(** ** More on the trace callback and on sessions *)

Section SessionFacts.
Variable getlines : string -> list string.

(** X9. Every line event replaces the snapshot, in continue-mode too, and
    nothing the operator enters changes it: however the callback ends,
    [current_frame] holds what [getframeinfo] made of the frame of the
    event. *)
Theorem snapshot_replaced_on_line_event frame script self :
  current_frame
    (outcome_self (trace_function getlines frame "line" script self))
  = Some (getframeinfo frame).
Proof.
  destruct (continue_mode self) eqn:C.
  - rewrite (trace_line_continuing _ _ _ _ C). reflexivity.
  - rewrite (trace_line_prompting _ _ _ _ C), outcome_self_after_output.
    pose proof (prompt_loop_keeps_frame getlines script
                  (set_current_frame (Some (getframeinfo frame)) self)) as H.
    destruct (_prompt_command getlines script
                (set_current_frame (Some (getframeinfo frame)) self));
      exact H.
Qed.

(** X10. When the debugger is not continuing, a line event first shows
    where the program is, the [At] line and the source line, and then
    writes the prompt, before anything the operator enters has an effect;
    this holds however the callback ends. *)
Theorem stop_shows_line_then_prompts frame script self :
  continue_mode self = false ->
  exists out,
    outcome_output (trace_function getlines frame "line" script self)
    = (shown_line getlines (getframeinfo frame)
       ++ Prompt prompt_text :: out)%list.
Proof.
  intros C. rewrite (trace_line_prompting _ _ _ _ C).
  destruct (prompt_command_prompts getlines script
              (set_current_frame (Some (getframeinfo frame)) self))
    as (oc & E).
  rewrite E. destruct oc as [a s o rest | e s o rest | s o];
    exists o; reflexivity.
Qed.

Lemma getline_out_of_range filename n :
  n < 1 \/ Z.of_nat (List.length (getlines filename)) < n ->
  getline getlines filename n = EmptyString.
Proof.
  intros H. unfold getline.
  destruct (Z.leb_spec 1 n);
    destruct (Z.leb_spec n (Z.of_nat (List.length (getlines filename))));
    try reflexivity.
  lia.
Qed.

(** X11. When the source line cannot be had, because the file is not
    there or has no line of that number, [_show_current_line] does not
    fail: it prints the [At] line and an arrow with nothing after it. *)
Theorem missing_source_line_shown_empty self fi :
  current_frame self = Some fi ->
  lineno fi < 1 \/ Z.of_nat (List.length (getlines (filename fi))) < lineno fi ->
  _show_current_line getlines self
  = (Ok tt, self,
     [ Print (nl ++ "At " ++ filename fi ++ ":" ++ str_int (lineno fi));
       Print "--> " ]).
Proof.
  intros Hc Hr. rewrite (show_current_line_run getlines self fi Hc).
  unfold shown_line. rewrite (getline_out_of_range _ _ Hr). reflexivity.
Qed.

(** X12. Stepping composes: when the operator answers every prompt with
    [n], a session of line events stops once at each of them, in order;
    each stop shows its line and writes one prompt, the callback returns
    itself every time, exactly one input is read per event, and the
    debugger is not continuing at the end. *)
Theorem stepping_session events : forall rest self,
  forallb is_line_event events = true ->
  continue_mode self = false ->
  exists self',
    run_events (trace_function getlines) events
      (map (fun _ => Entered "n") events ++ rest)%list self
    = Returned (repeat (Some self_trace_function) (List.length events))
        self' (stepping_output getlines events) rest
    /\ continue_mode self' = false.
Proof.
  induction events as [| [frame event] events IH]; intros rest self He C.
  - exists self. split; [reflexivity | exact C].
  - cbn [forallb] in He. apply andb_true_iff in He. destruct He as [Hl He].
    unfold is_line_event in Hl. cbn [snd] in Hl. apply String.eqb_eq in Hl.
    subst event. cbn [map app run_events].
    destruct (trace_function_returns_after_step getlines frame "n" []
                (map (fun _ => Entered "n") events ++ rest)%list self C eq_refl)
      as (_ & R).
    rewrite R.
    destruct (IH rest
                (set_step_mode false
                   (set_current_frame (Some (getframeinfo frame)) self))
                He C)
      as (self' & E & C').
    rewrite E. exists self'. split; [| exact C'].
    cbn [after_output repeat List.length stepping_output flat_map fst].
    reflexivity.
Qed.
End SessionFacts.

(** ** Listing the variables *)

Section VariableListing.

Lemma list_bindings {S} (good : list (string * PyValue)) (self : S) :
  forallb formats good = true ->
  Py.for_each good (fun '(name, value) =>
    text <- Py.lift (format_value value) ;;
    Py.print (name ++ " = " ++ text)) self
  = (Ok tt, self, map binding_line good).
Proof.
  induction good as [| [name value] good IH]; intros H; [reflexivity |].
  cbn [forallb] in H. apply andb_true_iff in H. destruct H as [Hf Hg].
  cbn [Py.for_each map]. rewrite bind_run, bind_run. cbn [Py.lift].
  unfold formats in Hf. cbn [snd] in Hf. unfold binding_line at 1.
  destruct (format_value value) as [text | e]; [| discriminate].
  cbn [Py.print app]. rewrite (IH Hg). reflexivity.
Qed.

Lemma list_bindings_until_broken {S} good name cls msg more (self : S) :
  forallb formats good = true ->
  Py.for_each (good ++ (name, PyBrokenObject cls msg) :: more)%list
    (fun '(name, value) =>
       text <- Py.lift (format_value value) ;;
       Py.print (name ++ " = " ++ text)) self
  = (Raise (Exception cls msg), self, map binding_line good).
Proof.
  induction good as [| [n v] good IH]; intros H.
  - reflexivity.
  - cbn [forallb] in H. apply andb_true_iff in H. destruct H as [Hf Hg].
    cbn [app Py.for_each map]. rewrite bind_run, bind_run. cbn [Py.lift].
    unfold formats in Hf. cbn [snd] in Hf. unfold binding_line at 1.
    destruct (format_value v) as [text | e]; [| discriminate].
    cbn [Py.print app]. rewrite (IH Hg). reflexivity.
Qed.

(** X13. On a snapshot that has the attribute [frame], [_list_variables]
    prints the bindings of [f_locals], one line each, in the order of the
    dictionary, and nothing of [f_globals]. When the value of a binding
    cannot be formatted, the listing stops there: the bindings before it
    are printed and the error of the formatting is raised. The debugger
    object is not changed. *)
Theorem list_variables_lists_locals arg self frame f l :
  current_frame self = Some (FrameInfo frame f l) ->
  (forallb formats (f_locals frame) = true ->
   _list_variables arg self = (Ok tt, self, map binding_line (f_locals frame)))
  /\ (forall good name cls msg more,
        f_locals frame = (good ++ (name, PyBrokenObject cls msg) :: more)%list ->
        forallb formats good = true ->
        _list_variables arg self
        = (Raise (Exception cls msg), self, map binding_line good)).
Proof.
  intros Hc.
  assert (U : _list_variables arg self
              = Py.for_each (f_locals frame) (fun '(name, value) =>
                  text <- Py.lift (format_value value) ;;
                  Py.print (name ++ " = " ++ text)) self).
  { unfold _list_variables. rewrite bind_run. cbn [Py.get]. rewrite Hc.
    cbn [truthy]. rewrite bind_run. cbn [attr_frame Py.lift].
    destruct (Py.for_each (f_locals frame) _ self) as [[r s] o]. reflexivity. }
  split.
  - intros H. rewrite U. apply list_bindings, H.
  - intros good name cls msg more E H. rewrite U, E.
    apply list_bindings_until_broken, H.
Qed.

(** X14. After a line event the snapshot is the [Traceback] of
    [getframeinfo], which has no attribute [frame]: the command [v] lists
    no variable; the attribute error leaves the handler, the loop prints
    it and prompts again. *)
Theorem list_variables_after_line_event getlines frame line args rest self :
  split_maxsplit_1 line = "v" :: args ->
  let self1 := set_current_frame (Some (getframeinfo frame)) self in
  _list_variables (first_arg args) self1
  = (Raise (AttributeError "Traceback" "frame"), self1, [])
  /\ _prompt_command getlines (Entered line :: rest) self1
     = after_output
         [ Prompt prompt_text;
           Print "Error: 'Traceback' object has no attribute 'frame'" ]
         (_prompt_command getlines rest self1).
Proof.
  intros Hs self1. split; [reflexivity |].
  rewrite prompt_command_turn.
  rewrite (turn_of_handler getlines line "v" args _list_variables self1 Hs
             eq_refl).
  reflexivity.
Qed.
End VariableListing.

(** ** The sample workload *)

Section Workload.

Lemma range_0_succ k :
  range 0 (Z.of_nat (S k)) = (range 0 (Z.of_nat k) ++ [Z.of_nat k])%list.
Proof.
  unfold range. rewrite !Z.sub_0_r, !Nat2Z.id, seq_S, map_app. reflexivity.
Qed.

Lemma sum_below k r :
  2 * fold_left (fun result i => result + i) (range 0 (Z.of_nat k)) r
  = 2 * r + Z.of_nat k * (Z.of_nat k - 1).
Proof.
  induction k as [| k IH].
  - cbn. lia.
  - rewrite range_0_succ, fold_left_app. cbn [fold_left]. lia.
Qed.

(** X15. [example_function(n)] is [3 + n] plus the sum of the numbers
    below [n]: for [n >= 0] it returns [3 + n + n * (n - 1) / 2], and for
    a negative [n], where the loop body never runs, [3 + n]. *)
Theorem example_function_closed_form n :
  (0 <= n -> example_function n = 3 + n + n * (n - 1) / 2)
  /\ (n < 0 -> example_function n = 3 + n).
Proof.
  unfold example_function. split; intros H.
  - pose proof (sum_below (Z.to_nat n) (1 + 2 + n)) as E.
    rewrite Z2Nat.id in E by exact H.
    assert (E' : fold_left (fun result i => result + i) (range 0 n) (1 + 2 + n)
                 - (3 + n)
                 = n * (n - 1) / 2).
    { apply Z.div_unique_exact; lia. }
    lia.
  - unfold range. replace (Z.to_nat (n - 0)) with O by lia. cbn. lia.
Qed.
End Workload.

(** ** The two handlers that read the frame, on a snapshot that has it *)

Section OnFrameInfo.
Variable getlines : string -> list string.

(** X16. On a snapshot that has the attribute [frame], [p name] looks the
    name up in [f_locals] first, then in [f_globals], and prints
    [name = value]; a name bound in neither is printed with
    [<not found>]; a value that cannot be formatted is reported by the
    handler itself. In every case the handler returns and the debugger
    object is not changed. *)
Theorem print_variable_lookup_order arg self frame f l :
  str_is_empty arg = false ->
  current_frame self = Some (FrameInfo frame f l) ->
  (forall v text,
     dict_lookup (f_locals frame) arg = Some v -> format_value v = Ok text ->
     _print_variable arg self = (Ok tt, self, [Print (arg ++ " = " ++ text)]))
  /\ (forall v text,
        dict_lookup (f_locals frame) arg = None ->
        dict_lookup (f_globals frame) arg = Some v ->
        format_value v = Ok text ->
        _print_variable arg self = (Ok tt, self, [Print (arg ++ " = " ++ text)]))
  /\ (dict_lookup (f_locals frame) arg = None ->
      dict_lookup (f_globals frame) arg = None ->
      _print_variable arg self
      = (Ok tt, self, [Print (arg ++ " = <not found>")]))
  /\ (forall cls msg,
        lookup_variable frame arg = PyBrokenObject cls msg ->
        _print_variable arg self
        = (Ok tt, self, [Print ("Error accessing variable: " ++ msg)])).
Proof.
  intros Ha Hc. split; [| split; [| split]].
  - intros v text Hl Hf.
    apply (print_variable_on_FrameInfo arg self frame f l text Ha Hc).
    rewrite lookup_variable_spec, Hl. exact Hf.
  - intros v text Hl Hg Hf.
    apply (print_variable_on_FrameInfo arg self frame f l text Ha Hc).
    rewrite lookup_variable_spec, Hl, Hg. exact Hf.
  - intros Hl Hg.
    apply (print_variable_on_FrameInfo arg self frame f l "<not found>" Ha Hc).
    rewrite lookup_variable_spec, Hl, Hg. reflexivity.
  - intros cls msg Hb. unfold _print_variable, Py.try_except_Exception.
    rewrite Ha, bind_run. cbn [Py.get]. rewrite bind_run, Hc.
    cbn [attr_frame Py.lift]. rewrite bind_run.
    fold (lookup_variable frame arg). rewrite Hb. reflexivity.
Qed.

(** X17. On a snapshot that has the attribute [frame], [l] prints a
    heading and then one line for each number from [max(L - 5, 1)] to
    [L + 5], in increasing order, where [L] is [f_lineno]: the line
    number in a field of four, the text without trailing whitespace, the
    arrow on line [L] and on no other; a number past the end of the file
    has no text. The handler returns and the debugger object is not
    changed. *)
Theorem list_source_window arg self frame f l :
  current_frame self = Some (FrameInfo frame f l) ->
  let L := f_lineno frame in
  let first := Z.max (L - 5) 1 in
  exists lines,
    _list_source getlines arg self
    = (Ok tt, self,
       Print (nl ++ "Source code around line " ++ str_int L ++ ":") :: lines)
    /\ List.length lines = Z.to_nat (L + 6 - first)
    /\ (forall i, (i < List.length lines)%nat ->
          nth i lines (Print EmptyString)
          = source_line getlines (f_code_co_filename frame) L
              (first + Z.of_nat i))
    /\ (forall n,
          Z.of_nat (List.length (getlines (f_code_co_filename frame))) < n ->
          source_line getlines (f_code_co_filename frame) L n
          = Print ((if n =? L then "-->" else "   ") ++ " " ++ format_4d n ++ " ")).
Proof.
  intros Hc L first.
  exists (map (source_line getlines (f_code_co_filename frame) L)
            (range first (L + 5 + 1))).
  split; [exact (list_source_on_FrameInfo getlines arg self frame f l Hc) |].
  split; [| split].
  - rewrite length_map, range_length. f_equal. lia.
  - intros i Hi. rewrite length_map, range_length in Hi.
    rewrite (nth_indep _ (Print EmptyString)
               (source_line getlines (f_code_co_filename frame) L 0))
      by (rewrite length_map, range_length; exact Hi).
    rewrite map_nth, range_nth by exact Hi. reflexivity.
  - intros n Hn. unfold source_line.
    rewrite (getline_past_end getlines _ _ Hn). reflexivity.
Qed.
End OnFrameInfo.

(** ** Concrete runs of the properties above *)

Lemma unknown_command_reported_witness :
  split_maxsplit_1 "x 1" = ["x"; "1"]
  /\ ~ In "x" command_keys
  /\ prompt_turn demo_getlines (Entered "x 1") demo_at_line_3
     = (Ok Continue, demo_at_line_3, Print "Unknown command: x" :: help_text).
Proof.
  assert (N : ~ In "x" command_keys).
  { unfold command_keys. simpl. intuition discriminate. }
  split; [reflexivity | split; [exact N |]].
  exact (proj1 (unknown_command_reported demo_getlines "x 1" "x" ["1"] []
                  demo_at_line_3 eq_refl N)).
Defined.


Lemma print_without_argument_prints_usage_witness :
  split_maxsplit_1 "p  " = ["p"]
  /\ prompt_turn demo_getlines (Entered "p  ") demo_at_line_3
     = (Ok Continue, demo_at_line_3, [Print "Usage: p <variable_name>"]).
Proof.
  split; [reflexivity |].
  exact (proj1 (print_without_argument_prints_usage demo_getlines "p  " []
                  demo_at_line_3 eq_refl)).
Defined.

Lemma argument_ignored_unless_print_witness :
  prompt_turn demo_getlines (Entered "n 5") demo_at_line_3
  = prompt_turn demo_getlines (Entered "n") demo_at_line_3.
Proof.
  apply (argument_ignored_unless_print demo_getlines "n 5" "n" "n" ["5"] []);
    [reflexivity | reflexivity | discriminate].
Defined.

Lemma inspection_never_resumes_witness :
  exists out,
    _prompt_command demo_getlines
      [ Entered "h"; Entered "p x"; Entered "l"; Entered "v"; Entered "  ";
        Entered ""; Interrupt; EndOfInput; Entered "next" ]
      demo_at_line_3
    = AwaitingInput demo_at_line_3 out.
Proof.
  apply inspection_never_resumes. reflexivity.
Defined.

Lemma first_decisive_command_witness :
  exists out,
    _prompt_command demo_getlines
      ([Entered "h"; Entered "p x"] ++ Entered "c" :: [Entered "n"])%list
      demo_at_line_3
    = Returned tt (set_continue_mode true demo_at_line_3) out [Entered "n"].
Proof.
  refine (proj1 (proj2 (first_decisive_command demo_getlines
                          [Entered "h"; Entered "p x"] "c" "c" [] [Entered "n"]
                          demo_at_line_3 eq_refl eq_refl)) eq_refl).
Defined.

Lemma prompt_loop_invariant_witness :
  _prompt_command demo_getlines [Entered "v"; Entered "n"; Entered "c"]
    demo_at_line_3
  = Returned tt (set_step_mode true demo_at_line_3)
      [ Prompt prompt_text;
        Print "Error: 'Traceback' object has no attribute 'frame'";
        Prompt prompt_text ]
      [Entered "c"]
  /\ (step_mode (set_step_mode true demo_at_line_3) = true
      \/ continue_mode (set_step_mode true demo_at_line_3) = true).
Proof.
  assert (R : _prompt_command demo_getlines
                [Entered "v"; Entered "n"; Entered "c"] demo_at_line_3
              = Returned tt (set_step_mode true demo_at_line_3)
                  [ Prompt prompt_text;
                    Print "Error: 'Traceback' object has no attribute 'frame'";
                    Prompt prompt_text ]
                  [Entered "c"]) by reflexivity.
  split; [exact R |].
  exact (proj2 (proj2 (proj2
           (prompt_loop_invariant demo_getlines
              [Entered "v"; Entered "n"; Entered "c"] demo_at_line_3)))
           _ _ _ R).
Defined.

Lemma stop_shows_line_then_prompts_witness :
  exists out,
    outcome_output
      (trace_function demo_getlines demo_frame "line" [Entered "q"] __init__)
    = (shown_line demo_getlines (getframeinfo demo_frame)
       ++ Prompt prompt_text :: out)%list.
Proof.
  apply stop_shows_line_then_prompts. reflexivity.
Defined.

Lemma missing_source_line_shown_empty_witness :
  _show_current_line demo_getlines
    (set_current_frame (Some (Traceback "gone.py" 7)) __init__)
  = (Ok tt, set_current_frame (Some (Traceback "gone.py" 7)) __init__,
     [Print (nl ++ "At gone.py:7"); Print "--> "]).
Proof.
  apply (missing_source_line_shown_empty demo_getlines _
           (Traceback "gone.py" 7)); [reflexivity |].
  right. reflexivity.
Defined.

Lemma stepping_session_witness :
  exists self',
    run_events (trace_function demo_getlines)
      [(demo_frame, "line"); (demo_frame, "line")]
      ([Entered "n"; Entered "n"] ++ [Entered "c"])%list __init__
    = Returned [Some self_trace_function; Some self_trace_function] self'
        (stepping_output demo_getlines
           [(demo_frame, "line"); (demo_frame, "line")])
        [Entered "c"]
    /\ continue_mode self' = false.
Proof.
  apply (stepping_session demo_getlines
           [(demo_frame, "line"); (demo_frame, "line")] [Entered "c"] __init__);
    reflexivity.
Defined.

Lemma list_variables_lists_locals_witness :
  forallb formats (f_locals demo_frame) = true
  /\ _list_variables "" demo_with_FrameInfo
     = (Ok tt, demo_with_FrameInfo, [Print "n = 3"; Print "x = 1"]).
Proof.
  split; [reflexivity |].
  exact (proj1 (list_variables_lists_locals "" demo_with_FrameInfo demo_frame
                  "demo.py" 3 eq_refl) eq_refl).
Defined.

Lemma list_variables_after_line_event_witness :
  split_maxsplit_1 "v" = ["v"]
  /\ _prompt_command demo_getlines [Entered "v"] demo_at_line_3
     = after_output
         [ Prompt prompt_text;
           Print "Error: 'Traceback' object has no attribute 'frame'" ]
         (_prompt_command demo_getlines [] demo_at_line_3).
Proof.
  split; [reflexivity |].
  exact (proj2 (list_variables_after_line_event demo_getlines demo_frame "v" []
                  [] __init__ eq_refl)).
Defined.

Lemma example_function_closed_form_witness :
  example_function 3 = 9 /\ example_function (-2) = 1.
Proof.
  split.
  - exact (proj1 (example_function_closed_form 3) ltac:(lia)).
  - exact (proj2 (example_function_closed_form (-2)) ltac:(lia)).
Defined.

Lemma print_variable_lookup_order_witness :
  _print_variable "x" demo_with_FrameInfo
  = (Ok tt, demo_with_FrameInfo, [Print "x = 1"])
  /\ _print_variable "g" demo_with_FrameInfo
     = (Ok tt, demo_with_FrameInfo, [Print "g = only global"])
  /\ _print_variable "z" demo_with_FrameInfo
     = (Ok tt, demo_with_FrameInfo, [Print "z = <not found>"]).
Proof.
  split; [| split].
  - exact (proj1 (print_variable_lookup_order "x" demo_with_FrameInfo
                    demo_frame "demo.py" 3 eq_refl eq_refl)
             (PyInt 1) "1" eq_refl eq_refl).
  - exact (proj1 (proj2 (print_variable_lookup_order "g" demo_with_FrameInfo
                           demo_frame "demo.py" 3 eq_refl eq_refl))
             (PyStr "only global") "only global" eq_refl eq_refl eq_refl).
  - exact (proj1 (proj2 (proj2 (print_variable_lookup_order "z"
                                  demo_with_FrameInfo demo_frame "demo.py" 3
                                  eq_refl eq_refl)))
             eq_refl eq_refl).
Defined.

Lemma list_source_window_witness :
  exists lines,
    _list_source demo_getlines "" demo_with_FrameInfo
    = (Ok tt, demo_with_FrameInfo,
       Print (nl ++ "Source code around line 3:") :: lines)
    /\ List.length lines = 8%nat.
Proof.
  destruct (list_source_window demo_getlines "" demo_with_FrameInfo demo_frame
              "demo.py" 3 eq_refl) as (lines & E & Hlen & _).
  exists lines. split; [exact E | exact Hlen].
Defined.
